(** * db-sensitive-audit: the classification engine of [database_auditor.py]

    A shallow embedding of [DatabaseAuditor]: the rule store
    ([load_sensitive_rules], [_get_default_rules]), the classifier
    ([identify_sensitive_info]), the confirmation policy
    ([confirm_sensitive_data]), the datasource configuration parser
    ([parse_datasource_config]), the display conversion of [get_table_info]
    and the aggregator ([_generate_audit_summary]).

    Conventions of the embedding:
    - a Python [str] is a [string]; one [ascii] stands for one character.
      [lower], [strip] and [int] follow Python on ASCII text; characters
      above 127 (the bytes of the UTF-8 literals of the source) are neither
      white space nor cased;
    - a Python [dict] is an association list in insertion order;
    - logging and exceptions are explicit: a computation returns a result
      or a raised exception, together with the log records it emitted;
    - the two library calls the engine relies on, [re.match] and
      [json.loads], are parameters of the development;
    - a rule file that [json.load] decodes is read at the shape of
      [_get_default_rules]: an object with the optional keys
      ["sensitive_rules"] and ["settings"], whose entries have the types
      of the default ones. *)

From Stdlib Require Import String Ascii List ZArith Lia Bool DecimalString.
From Stdlib Require Import Sorted Permutation RelationClasses OrderedTypeEx.
Import ListNotations.
Local Open Scope string_scope.
Local Open Scope list_scope.

(** ** Python strings *)

Module PyStr.

(** [str.isspace] on ASCII: TAB..CR, FS..US and the space. *)
Definition is_space (c : ascii) : bool :=
  let n := nat_of_ascii c in
  ((9 <=? n) && (n <=? 13) || (28 <=? n) && (n <=? 32))%nat.

Definition lower_char (c : ascii) : ascii :=
  let n := nat_of_ascii c in
  if ((65 <=? n) && (n <=? 90))%nat then ascii_of_nat (n + 32) else c.

(** [s.lower()] *)
Fixpoint lower (s : string) : string :=
  match s with
  | EmptyString => EmptyString
  | String c r => String (lower_char c) (lower r)
  end.

Fixpoint lstrip (s : string) : string :=
  match s with
  | EmptyString => EmptyString
  | String c r => if is_space c then lstrip r else s
  end.

Fixpoint rstrip (s : string) : string :=
  match s with
  | EmptyString => EmptyString
  | String c r =>
      match rstrip r with
      | EmptyString => if is_space c then EmptyString else String c EmptyString
      | r' => String c r'
      end
  end.

(** [s.strip()] *)
Definition strip (s : string) : string := rstrip (lstrip s).

(** [s.startswith(p)] *)
Definition startswith (s p : string) : bool := prefix p s.

(** [needle in hay] on strings *)
Fixpoint str_in (needle hay : string) : bool :=
  prefix needle hay ||
  match hay with
  | EmptyString => false
  | String _ r => str_in needle r
  end.

(** [s[:n]] *)
Fixpoint take (n : nat) (s : string) : string :=
  match n, s with
  | S m, String c r => String c (take m r)
  | _, _ => EmptyString
  end.

(** [s.split(sep)] for a one-character separator *)
Fixpoint split (sep : ascii) (s : string) : list string :=
  match s with
  | EmptyString => [EmptyString]
  | String c r =>
      if Ascii.eqb c sep then EmptyString :: split sep r
      else match split sep r with
           | h :: t => String c h :: t
           | [] => [String c EmptyString]
           end
  end.

(** [sep.join(l)] *)
Fixpoint join (sep : string) (l : list string) : string :=
  match l with
  | [] => EmptyString
  | [x] => x
  | x :: r => (x ++ sep ++ join sep r)%string
  end.

(** [x in l] on a list of strings *)
Definition list_in (x : string) (l : list string) : bool :=
  existsb (String.eqb x) l.

Definition of_nat (n : nat) : string := NilEmpty.string_of_uint (Nat.to_uint n).
Definition of_Z (z : Z) : string := NilEmpty.string_of_int (Z.to_int z).

Definition digit_of (c : ascii) : option Z :=
  let n := nat_of_ascii c in
  if ((48 <=? n) && (n <=? 57))%nat then Some (Z.of_nat (n - 48)) else None.

(** The digits of a base-10 literal: one or more digits, single
    underscores allowed between digits.  [seen] tells whether the previous
    character was a digit. *)
Fixpoint digits (s : string) (acc : Z) (seen : bool) : option Z :=
  match s with
  | EmptyString => if seen then Some acc else None
  | String c r =>
      match digit_of c with
      | Some d => digits r (10 * acc + d) true
      | None =>
          if Ascii.eqb c "_" && seen
          then match r with
               | String c' _ =>
                   match digit_of c' with
                   | Some _ => digits r acc false
                   | None => None
                   end
               | EmptyString => None
               end
          else None
      end
  end.

(** [int(s)] on ASCII text; [None] stands for [ValueError]. *)
Definition to_int (s : string) : option Z :=
  match strip s with
  | String "+" r => digits r 0 false
  | String "-" r => option_map Z.opp (digits r 0 false)
  | t => digits t 0 false
  end.

End PyStr.

(** ** Python dictionaries and values *)

Module PyDict.

(** A [dict] with string keys, in insertion order. *)
Definition dict (V : Type) : Type := list (string * V).

(** [d.get(k)] *)
Fixpoint get {V} (d : dict V) (k : string) : option V :=
  match d with
  | [] => None
  | (k', v) :: r => if String.eqb k k' then Some v else get r k
  end.

(** [d.get(k, default)] *)
Definition get_default {V} (d : dict V) (k : string) (default : V) : V :=
  match get d k with
  | Some v => v
  | None => default
  end.

(** [d[k] = v]: an existing key keeps its place, a new one goes last. *)
Fixpoint set {V} (d : dict V) (k : string) (v : V) : dict V :=
  match d with
  | [] => [(k, v)]
  | (k', v') :: r =>
      if String.eqb k k' then (k', v) :: r else (k', v') :: set r k v
  end.

(** [list(d.keys())] *)
Definition keys {V} (d : dict V) : list string := map fst d.

End PyDict.

Module PyVal.

(** The values the engine handles: database cells and the entries of the
    dictionaries it builds.  A float is given by what [str] prints for it;
    an object of any other type (a date, a decimal, bytes) by what [str]
    and [bool] return on it. *)
Inductive pyvalue : Type :=
| PyNone
| PyBool (b : bool)
| PyInt (z : Z)
| PyFloat (repr : string)
| PyStr (s : string)
| PyObj (repr : string) (truth : bool).

(** [str(v)] *)
Definition py_str (v : pyvalue) : string :=
  match v with
  | PyNone => "None"
  | PyBool true => "True"
  | PyBool false => "False"
  | PyInt z => PyStr.of_Z z
  | PyFloat r => r
  | PyStr s => s
  | PyObj r _ => r
  end.

(** [bool(v)] *)
Definition truthy (v : pyvalue) : bool :=
  match v with
  | PyNone => false
  | PyBool b => b
  | PyInt z => negb (Z.eqb z 0)
  | PyFloat r => negb (String.eqb r "0.0" || String.eqb r "-0.0")
  | PyStr s => negb (String.eqb s "")
  | PyObj _ t => t
  end.

(** [v == s] for a string literal [s] *)
Definition eq_str (v : pyvalue) (s : string) : bool :=
  match v with
  | PyStr t => String.eqb t s
  | _ => false
  end.

(** [isinstance(v, (int, float, bool))] *)
Definition is_number (v : pyvalue) : bool :=
  match v with
  | PyBool _ | PyInt _ | PyFloat _ => true
  | _ => false
  end.

End PyVal.

(** ** Effects: the logger and exceptions *)

Module Eff.

Inductive level : Type := DEBUG | INFO | WARNING | ERROR.

Definition log_record : Type := (level * string)%type.

Inductive exn : Type :=
| ValueError (literal : string)      (* [int(literal)] failed *)
| AttributeError (what : string).    (* a method looked up on the wrong type *)

Inductive res (A : Type) : Type :=
| Ok (a : A)
| Raise (e : exn).
Arguments Ok {A} a.
Arguments Raise {A} e.

(** A computation: its outcome and the records it logged, oldest first. *)
Definition M (A : Type) : Type := (res A * list log_record)%type.

Definition ret {A} (a : A) : M A := (Ok a, []).

Definition raise {A} (e : exn) : M A := (Raise e, []).

Definition bind {A B} (m : M A) (k : A -> M B) : M B :=
  match m with
  | (Ok a, l) => let (r, l') := k a in (r, l ++ l')
  | (Raise e, l) => (Raise e, l)
  end.

Definition log (lv : level) (msg : string) : M unit := (Ok tt, [(lv, msg)]).

Definition outcome {A} (m : M A) : res A := fst m.
Definition logs {A} (m : M A) : list log_record := snd m.

(** [for x in l: acc = body(acc, x)], stopping at the first exception. *)
Fixpoint foldM {A B} (body : A -> B -> M A) (l : list B) (acc : A) : M A :=
  match l with
  | [] => ret acc
  | x :: r => bind (body acc x) (foldM body r)
  end.

End Eff.

Notation "x <- m ;; k" := (Eff.bind m (fun x => k))
  (at level 61, m at next level, right associativity).
Notation "m ;;; k" := (Eff.bind m (fun _ => k))
  (at level 61, right associativity).

(** ** Regular expressions *)

Module Re.

(** What [re.match(pattern, s)] does: a match object, [None], or the
    exception [re.error] for a pattern that does not compile. *)
Inductive outcome : Type :=
| Match
| NoMatch
| Error (msg : string).

(** The type of [re.match]. *)
Definition matcher : Type := string -> string -> outcome.

End Re.

(** A reference matcher for a fragment of Python's pattern syntax: an
    optional leading [^], then literals, [.], the escapes [\d], [\w], [\s]
    and escaped punctuation, bracketed classes with ranges and negation,
    each optionally followed by [*], [+], [?], [{n}] or [{n,m}], then an
    optional final [$].  It is what the concrete examples are run with;
    every general theorem holds for an arbitrary matcher.  A pattern that
    this fragment cannot read is answered with [Re.Error]. *)
Module ReFragment.

Inductive rx : Type :=
| RNone
| REps
| RSet (p : ascii -> bool)
| RCat (a b : rx)
| RAlt (a b : rx)
| RStar (a : rx).

Fixpoint nullable (r : rx) : bool :=
  match r with
  | RNone => false
  | REps => true
  | RSet _ => false
  | RCat a b => nullable a && nullable b
  | RAlt a b => nullable a || nullable b
  | RStar _ => true
  end.

(** Brzozowski derivative *)
Fixpoint deriv (c : ascii) (r : rx) : rx :=
  match r with
  | RNone => RNone
  | REps => RNone
  | RSet p => if p c then REps else RNone
  | RCat a b =>
      if nullable a then RAlt (RCat (deriv c a) b) (deriv c b)
      else RCat (deriv c a) b
  | RAlt a b => RAlt (deriv c a) (deriv c b)
  | RStar a => RCat (deriv c a) (RStar a)
  end.

(** the whole of [s] is in the language of [r] *)
Fixpoint full (r : rx) (s : string) : bool :=
  match s with
  | EmptyString => nullable r
  | String c t => full (deriv c r) t
  end.

(** some prefix of [s] is in the language of [r] *)
Fixpoint some_prefix (r : rx) (s : string) : bool :=
  nullable r ||
  match s with
  | EmptyString => false
  | String c t => some_prefix (deriv c r) t
  end.

Fixpoint power (n : nat) (r : rx) : rx :=
  match n with
  | O => REps
  | S m => RCat r (power m r)
  end.

Definition between (lo hi : ascii) (c : ascii) : bool :=
  (nat_of_ascii lo <=? nat_of_ascii c)%nat && (nat_of_ascii c <=? nat_of_ascii hi)%nat.

Definition is_digit : ascii -> bool := between "0" "9".
Definition is_word (c : ascii) : bool :=
  between "a" "z" c || between "A" "Z" c || is_digit c || Ascii.eqb c "_".
Definition is_alnum (c : ascii) : bool :=
  between "a" "z" c || between "A" "Z" c || is_digit c.

(** the set an escape [\c] stands for *)
Definition escape (c : ascii) : option (ascii -> bool) :=
  if Ascii.eqb c "d" then Some is_digit
  else if Ascii.eqb c "w" then Some is_word
  else if Ascii.eqb c "s" then Some PyStr.is_space
  else if is_alnum c then None
  else Some (Ascii.eqb c).

(** the inside of a bracketed class, up to and including the [']'] *)
Fixpoint class (s : string) (acc : ascii -> bool) : option ((ascii -> bool) * string) :=
  match s with
  | EmptyString => None
  | String "]" rest => Some (acc, rest)
  | String "\" (String d rest) =>
      match escape d with
      | Some p => class rest (fun c => acc c || p c)
      | None => None
      end
  | String "\" EmptyString => None
  | String lo (String "-" (String hi rest as tl)) =>
      if Ascii.eqb hi "]" then class tl (fun c => acc c || Ascii.eqb c lo || Ascii.eqb c "-")
      else if (nat_of_ascii lo <=? nat_of_ascii hi)%nat
           then class rest (fun c => acc c || between lo hi c)
           else None
  | String x rest => class rest (fun c => acc c || Ascii.eqb c x)
  end.

Fixpoint number (s : string) (acc : nat) : nat * string :=
  match s with
  | String c rest =>
      if is_digit c then number rest (10 * acc + (nat_of_ascii c - 48)) else (acc, s)
  | EmptyString => (acc, s)
  end.

(** a quantifier at the head of [s], applied to the atom [a] *)
Definition quantified (a : rx) (s : string) : option (rx * string) :=
  match s with
  | String "*" rest => Some (RStar a, rest)
  | String "+" rest => Some (RCat a (RStar a), rest)
  | String "?" rest => Some (RAlt REps a, rest)
  | String "{" (String c _ as rest) =>
      if is_digit c then
        match number rest 0 with
        | (n, String "}" rest') => Some (power n a, rest')
        | (n, String "," (String c' _ as rest')) =>
            if is_digit c' then
              match number rest' 0 with
              | (m, String "}" rest'') =>
                  if (n <=? m)%nat
                  then Some (RCat (power n a) (power (m - n) (RAlt REps a)), rest'')
                  else None
              | _ => None
              end
            else None
        | _ => None
        end
      else None
  | String "{" EmptyString => None
  | _ => Some (a, s)
  end.

Definition is_meta (c : ascii) : bool :=
  existsb (Ascii.eqb c) (list_ascii_of_string "()|*+?{}^$").

(** an atom at the head of [s] *)
Definition atom (s : string) : option (rx * string) :=
  match s with
  | EmptyString => None
  | String "." rest => Some (RSet (fun c => negb (Ascii.eqb c "010")), rest)
  | String "\" (String d rest) =>
      match escape d with
      | Some p => Some (RSet p, rest)
      | None => None
      end
  | String "\" EmptyString => None
  | String "[" (String "^" rest) =>
      match class rest (fun _ => false) with
      | Some (p, rest') => Some (RSet (fun c => negb (p c)), rest')
      | None => None
      end
  | String "[" rest =>
      match class rest (fun _ => false) with
      | Some (p, rest') => Some (RSet p, rest')
      | None => None
      end
  | String c rest => if is_meta c then None else Some (RSet (Ascii.eqb c), rest)
  end.

(** the pattern after its leading [^]: the expression and whether it ends
    with [$] *)
Fixpoint items (fuel : nat) (s : string) : option (rx * bool) :=
  match fuel with
  | O => None
  | S fuel' =>
      match s with
      | EmptyString => Some (REps, false)
      | String "$" EmptyString => Some (REps, true)
      | _ =>
          match atom s with
          | None => None
          | Some (a, rest) =>
              match quantified a rest with
              | None => None
              | Some (q, rest') =>
                  match items fuel' rest' with
                  | None => None
                  | Some (r, e) => Some (RCat q r, e)
                  end
              end
          end
      end
  end.

Definition compile (pattern : string) : option (rx * bool) :=
  let body := match pattern with
              | String "^" rest => rest
              | _ => pattern
              end in
  items (S (String.length body)) body.

(** [re.match]: the pattern must match at the start of [s]; a final [$]
    asks for the end of [s] or the position before a last newline. *)
Definition re_match : Re.matcher := fun pattern s =>
  match compile pattern with
  | None => Re.Error "unsupported or malformed pattern"
  | Some (r, true) =>
      if full (RCat r (RAlt REps (RSet (Ascii.eqb "010")))) s then Re.Match else Re.NoMatch
  | Some (r, false) =>
      if some_prefix r s then Re.Match else Re.NoMatch
  end.

End ReFragment.

(** ** The rule store *)

Module Rules.
Import PyStr PyDict PyVal Eff.

(** One entry of ["sensitive_rules"].  A key that the file leaves out is
    [None]; the code reads every key with [.get(key, default)]. *)
Record rule_config : Type := {
  field_keywords : option (list string);
  regex_patterns : option (list string);
  description : option string
}.

(** The ["settings"] object. *)
Record settings_config : Type := {
  enabled_rules : option (list string);
  case_sensitive : option bool;
  max_field_length : option Z;
  exclude_test_data : option bool;
  test_patterns : option (list string)
}.

(** What [load_sensitive_rules] returns. *)
Record rules_config : Type := {
  sensitive_rules : option (dict rule_config);
  settings : option settings_config
}.

(** [x.get(key, default)] on a key of the records above *)
Definition or_default {A} (o : option A) (default : A) : A :=
  match o with
  | Some v => v
  | None => default
  end.

(** [{}] read as a settings object *)
Definition no_settings : settings_config :=
  {| enabled_rules := None; case_sensitive := None; max_field_length := None;
     exclude_test_data := None; test_patterns := None |}.

(** What the process finds at [config/sensitive_rules.json]: no file, a
    file whose opening or decoding raises (with the text of the exception),
    or a file that [json.load] decodes. *)
Inductive rules_file : Type :=
| FileAbsent
| FileFails (e : string)
| FileHolds (cfg : rules_config).

Definition rules_path : string := "config/sensitive_rules.json".

Definition _get_default_rules : rules_config :=
  {| sensitive_rules := Some
       [("手机号",
         {| field_keywords := Some ["phone"; "mobile"; "telephone"];
            regex_patterns := Some ["^1[3-9]\d{9}$"];
            description := Some "中国手机号" |})];
     settings := Some
       {| enabled_rules := Some ["手机号"];
          case_sensitive := Some false;
          max_field_length := Some 100%Z;
          exclude_test_data := Some true;
          test_patterns := Some ["test"; "demo"; "example"; "sample"; "fake"] |} |}.

Definition load_sensitive_rules (env : rules_file) : M rules_config :=
  match env with
  | FileHolds cfg => ret cfg
  | FileAbsent =>
      log WARNING ("敏感信息规则文件不存在: " ++ rules_path ++ "，使用默认规则")%string ;;;
      ret _get_default_rules
  | FileFails e =>
      log ERROR ("加载敏感信息规则失败: " ++ e ++ "，使用默认规则")%string ;;;
      ret _get_default_rules
  end.

End Rules.

(** ** The classifier and the confirmation policy *)

Module Classifier.
Import PyStr PyDict PyVal Eff Rules.

(** What is stored per column: the classifier stores a dictionary with the
    keys ["value"], ["field_match"] and ["value_match"]; a caller of
    [confirm_sensitive_data] may pass anything. *)
Inductive field_info : Type :=
| FDict (d : dict pyvalue)
| FOther (v : pyvalue).

(** category -> column -> field_info *)
Definition sensitive_info : Type := dict (dict field_info).

Definition yes : string := "是".
Definition no : string := "否".

(** lines 202-207: the value shown for a column *)
Definition display_value (value : pyvalue) : pyvalue :=
  match value with
  | PyNone => PyNone
  | _ =>
      let shown := strip (py_str value) in
      PyStr (if (50 <? String.length shown)%nat
             then (take 50 shown ++ "...")%string else shown)
  end.

(** lines 166-172: some keyword is a substring of the column name *)
Definition field_name_matches (case_sensitive : bool) (column : string)
    (field_keywords : list string) : bool :=
  let column_check := if negb case_sensitive then lower column else column in
  existsb (fun keyword =>
             let keyword_check := if negb case_sensitive then lower keyword else keyword in
             str_in keyword_check column_check)
          field_keywords.

(** line 180: the value carries a test-data marker *)
Definition is_test_data (test_patterns : list string) (str_value : string) : bool :=
  existsb (fun pattern => str_in (lower pattern) (lower str_value)) test_patterns.

(** lines 197-213: record the match when one of the two flags is set *)
Definition record_match (info : sensitive_info) (rule_name column : string)
    (value : pyvalue) (is_field_match is_value_match : bool) : sensitive_info :=
  if is_field_match || is_value_match then
    set info rule_name
      (set (get_default info rule_name []) column
         (FDict [("value", display_value value);
                 ("field_match", PyBool is_field_match);
                 ("value_match", PyBool is_value_match)]))
  else info.

Section WithMatcher.
Variable re_match : Re.matcher.

(** lines 187-194: the first pattern that matches sets the flag; a pattern
    that does not compile is logged and passed over *)
Fixpoint value_matches (regex_patterns : list string) (str_value : string) : M bool :=
  match regex_patterns with
  | [] => ret false
  | pattern :: rest =>
      match re_match pattern str_value with
      | Re.Match => ret true
      | Re.NoMatch => value_matches rest str_value
      | Re.Error e =>
          log WARNING ("正则表达式错误 " ++ pattern ++ ": " ++ e)%string ;;;
          value_matches rest str_value
      end
  end.

(** lines 158-213: the body of the loop over the rules, for one column and
    its value.  [continue] leaves [info] as it is. *)
Definition check_rule (settings : settings_config) (column : string) (value : pyvalue)
    (info : sensitive_info) (rule : string * rule_config) : M sensitive_info :=
  let (rule_name, rule_config) := rule in
  if negb (list_in rule_name (or_default settings.(enabled_rules) [])) then ret info
  else
    let is_field_match :=
      field_name_matches (or_default settings.(case_sensitive) false) column
        (or_default rule_config.(field_keywords) []) in
    match value with
    | PyNone => ret (record_match info rule_name column value is_field_match false)
    | _ =>
        let str_value := strip (py_str value) in
        if or_default settings.(exclude_test_data) true
           && is_test_data (or_default settings.(test_patterns) []) str_value
        then ret info
        else if (Z.of_nat (String.length str_value) >? or_default settings.(max_field_length) 100)%Z
        then ret info
        else
          is_value_match <-
            value_matches (or_default rule_config.(regex_patterns) []) str_value ;;
          ret (record_match info rule_name column value is_field_match is_value_match)
    end.

(** lines 154-213: the body of the loop over the columns *)
Definition check_column (settings : settings_config) (rules : dict rule_config)
    (info : sensitive_info) (cell : string * pyvalue) : M sensitive_info :=
  let (column, value) := cell in
  foldM (check_rule settings column value) rules info.

(** [identify_sensitive_info].  Past the guard of line 151 the record is as
    long as the columns, so [record[i]] for the [i]-th column is the second
    component of the [i]-th pair of [combine columns record]. *)
Definition identify_sensitive_info (env : rules_file) (columns : list string)
    (record : list pyvalue) : M sensitive_info :=
  rules_config <- load_sensitive_rules env ;;
  let rules := or_default rules_config.(sensitive_rules) [] in
  let settings := or_default rules_config.(settings) no_settings in
  if (match record with [] => true | _ => false end)
     || negb (List.length record =? List.length columns)%nat
  then ret []
  else foldM (check_column settings rules) (combine columns record) [].

(** lines 253-259: some pattern matches; [re.error] is passed over silently *)
Fixpoint any_pattern_matches (regex_patterns : list string) (str_value : string) : bool :=
  match regex_patterns with
  | [] => false
  | pattern :: rest =>
      match re_match pattern str_value with
      | Re.Match => true
      | Re.NoMatch => any_pattern_matches rest str_value
      | Re.Error _ => any_pattern_matches rest str_value
      end
  end.

(** lines 243-259: one entry of a category makes the verdict [yes] *)
Definition field_confirms (regex_patterns : list string) (field : string * field_info) : bool :=
  match snd field with
  | FOther _ => false
  | FDict d =>
      match get_default d "value" PyNone with
      | PyNone => false
      | value => any_pattern_matches regex_patterns (strip (py_str value))
      end
  end.

(** lines 235-259: one category makes the verdict [yes] *)
Definition rule_confirms (rules : dict rule_config)
    (detected : string * dict field_info) : bool :=
  match get rules (fst detected) with
  | None => false
  | Some rule_config =>
      existsb (field_confirms (or_default rule_config.(regex_patterns) [])) (snd detected)
  end.

(** [confirm_sensitive_data]: the loops return at the first match. *)
Definition confirm_sensitive_data (env : rules_file) (info : sensitive_info) : M string :=
  match info with
  | [] => ret no
  | _ =>
      rules_config <- load_sensitive_rules env ;;
      let rules := or_default rules_config.(sensitive_rules) [] in
      ret (if existsb (rule_confirms rules) info then yes else no)
  end.

End WithMatcher.

End Classifier.

(** ** The datasource configuration *)

Module Config.
Import PyStr PyDict PyVal Eff.

Record datasource : Type := {
  datasource_name : string;
  ip : string;
  port : Z;
  username : string;
  password : string
}.

(** lines 277-294: the body of the loop over the lines.  [int(parts[2])]
    is evaluated while the dictionary is built, and its [ValueError] is not
    caught. *)
Definition parse_line (datasources : list datasource) (line : string)
    : M (list datasource) :=
  let line := strip line in
  if String.eqb line "" || startswith line "#" then ret datasources
  else
    let parts := map strip (split "," line) in
    if (5 <=? List.length parts)%nat then
      match to_int (nth 2 parts "") with
      | None => raise (ValueError (nth 2 parts ""))
      | Some p =>
          let datasource :=
            {| datasource_name := nth 0 parts ""; ip := nth 1 parts ""; port := p;
               username := nth 3 parts ""; password := nth 4 parts "" |} in
          log INFO ("解析数据源配置: " ++ datasource.(datasource_name) ++ " - "
                    ++ datasource.(ip) ++ ":" ++ of_Z datasource.(port))%string ;;;
          ret (datasources ++ [datasource])
      end
    else
      log WARNING ("跳过无效的配置行: " ++ line)%string ;;;
      ret datasources.

Definition parse_datasource_config (config_text : string) : M (list datasource) :=
  foldM parse_line (split "010" (strip config_text)) [].

End Config.

(** ** The sampled record of [get_table_info] *)

Module TableInfo.
Import PyStr PyDict PyVal.

(** lines 463-472: the form in which a sampled value is kept *)
Definition column_value (value : pyvalue) : pyvalue :=
  match value with
  | PyNone => PyNone
  | _ =>
      if is_number value then value
      else
        let str_value := py_str value in
        PyStr (if (100 <? String.length str_value)%nat
               then (take 100 str_value ++ "...")%string else str_value)
  end.

(** lines 458-472: [column_value_dict]; a column beyond the end of the
    record gets no entry. *)
Fixpoint column_value_dict (columns : list string) (record : list pyvalue)
    (acc : dict pyvalue) : dict pyvalue :=
  match columns, record with
  | column :: columns', value :: record' =>
      column_value_dict columns' record' (set acc column (column_value value))
  | _, _ => acc
  end.

End TableInfo.

(** ** The aggregator *)

Module Aggregator.
Import PyStr PyDict PyVal Eff Classifier.

(** One row of the audit sheet; the ten keys of the dictionaries appended
    to [audit_results], in the order of the source:
    风险类型, 风险等级, 检查项, 表名, 字段名, 敏感类型, 风险描述, 检测值,
    记录总数, 建议. *)
Record finding : Type := {
  risk_type : string;
  risk_level : string;
  check_item : string;
  table_name : pyvalue;
  field_name : string;
  sensitive_type : string;
  risk_description : string;
  detected_value : string;
  record_count : pyvalue;
  suggestion : string
}.

Definition high_risk_permissions : list string :=
  ["超级权限"; "文件权限"; "关闭权限"; "重载权限";
   "进程权限"; "授权权限"; "复制从权限"; "复制客户端权限"].

Definition data_permissions : list string :=
  ["查询权限"; "插入权限"; "更新权限"; "删除权限"].

(** [user.get(perm) == '是'] *)
Definition holds (user : dict pyvalue) (perm : string) : bool :=
  eq_str (get_default user perm PyNone) "是".

(** lines 723-726 *)
Definition user_high_risks (user : dict pyvalue) : list string :=
  filter (holds user) high_risk_permissions.

(** lines 728-740 *)
Definition high_risk_finding (user : dict pyvalue) : finding :=
  let username := get_default user "用户名" (PyStr "") in
  let host := get_default user "主机" (PyStr "") in
  {| risk_type := "权限风险";
     risk_level := if list_in "超级权限" (user_high_risks user) then "高" else "中";
     check_item := "用户权限";
     table_name := PyStr "-";
     field_name := "-";
     sensitive_type := "数据库权限";
     risk_description :=
       ("用户 " ++ py_str username ++ "@" ++ py_str host ++ " 拥有高危权限: "
        ++ join ", " (user_high_risks user))%string;
     detected_value := (of_nat (List.length (user_high_risks user)) ++ "个高危权限")%string;
     record_count := PyStr "-";
     suggestion := "根据最小权限原则，移除不必要的高危权限" |}.

(** lines 743-755 *)
Definition wildcard_host_finding (user : dict pyvalue) : finding :=
  let username := get_default user "用户名" (PyStr "") in
  {| risk_type := "权限风险";
     risk_level := "中";
     check_item := "用户权限";
     table_name := PyStr "-";
     field_name := "-";
     sensitive_type := "主机权限";
     risk_description :=
       ("用户 " ++ py_str username ++ " 允许从任意主机(%)连接并具有数据操作权限")%string;
     detected_value := "通配符主机权限";
     record_count := PyStr "-";
     suggestion := "限制用户只能从特定主机连接，避免使用通配符(%)" |}.

(** line 743 *)
Definition wildcard_host (user : dict pyvalue) : bool :=
  eq_str (get_default user "主机" (PyStr "")) "%" && existsb (holds user) data_permissions.

(** lines 718-755: what one user appends to [audit_results] *)
Definition user_findings (user : dict pyvalue) : list finding :=
  (match user_high_risks user with
   | [] => []
   | _ => [high_risk_finding user]
   end)
  ++ (if wildcard_host user then [wildcard_host_finding user] else []).

(** lines 758-759: the sort key, and Python's [<] on such pairs *)
Definition risk_priority (level : string) : nat :=
  get_default [("高", 1); ("中", 2); ("低", 3)] level 99.

Definition sort_key (x : finding) : nat * string :=
  (risk_priority x.(risk_level), x.(risk_type)).

Definition key_ltb (a b : nat * string) : bool :=
  (fst a <? fst b)%nat || ((fst a =? fst b)%nat && String.ltb (snd a) (snd b)).

Definition key_eqb (a b : nat * string) : bool :=
  (fst a =? fst b)%nat && String.eqb (snd a) (snd b).

(** [list.sort(key=...)] is a stable sort.  The stable sorted arrangement
    of a list is unique, so the insertion sort below returns what
    [list.sort] returns: an element goes in front of the first one that is
    not smaller than it. *)
Fixpoint insert (x : finding) (l : list finding) : list finding :=
  match l with
  | [] => [x]
  | y :: r =>
      if key_ltb (sort_key y) (sort_key x) then y :: insert x r else x :: l
  end.

Definition sort (l : list finding) : list finding := fold_right insert [] l.

Section WithJson.
(** [json.loads] on the cell kept under 敏感信息, read at the type of the
    classifier's result; [None] for any exception (the bare [except] of
    line 677 leaves the empty dictionary in place). *)
Variable json_loads : pyvalue -> option sensitive_info.

(** lines 687-691: one column of one category *)
Definition collect_field (sensitive_type : string)
    (acc : list string * list string) (field : string * field_info)
    : M (list string * list string) :=
  let (sensitive_fields, sample_values) := acc in
  let (name, details) := field in
  let sensitive_fields := sensitive_fields ++ [(name ++ "(" ++ sensitive_type ++ ")")%string] in
  match details with
  | FOther _ => raise (AttributeError "get")
  | FDict d =>
      if truthy (get_default d "value" PyNone) then
        let value := py_str (get_default d "value" (PyStr "")) in
        ret (sensitive_fields,
             sample_values ++ [if (10 <? String.length value)%nat
                               then (take 10 value ++ "...")%string else value])
      else ret (sensitive_fields, sample_values)
  end.

(** lines 686-691 *)
Definition collect_type (acc : list string * list string)
    (entry : string * dict field_info) : M (list string * list string) :=
  let (sensitive_type, fields) := entry in
  foldM (collect_field sensitive_type) fields acc.

(** lines 671-710: what one table appends to [audit_results] *)
Definition table_findings (database : string) (table : dict pyvalue) : M (list finding) :=
  if eq_str (get_default table "敏感信息确认" PyNone) yes then
    let info :=
      match json_loads (get_default table "敏感信息" (PyStr "{}")) with
      | Some parsed => parsed
      | None => []
      end in
    match info with
    | [] => ret []
    | _ =>
        let sensitive_types := keys info in
        collected <- foldM collect_type info ([], []) ;;
        let (sensitive_fields, sample_values) := collected in
        let types_str := join "、" sensitive_types in
        let fields_str := join "、" (firstn 3 sensitive_fields) in
        let fields_str :=
          if (3 <? List.length sensitive_fields)%nat
          then (fields_str ++ "等" ++ of_nat (List.length sensitive_fields) ++ "个字段")%string
          else fields_str in
        let name := py_str (get_default table "表名" (PyStr "")) in
        ret [{| risk_type := "敏感信息";
                risk_level := "高";
                check_item := database;
                table_name := get_default table "表名" (PyStr "");
                field_name := fields_str;
                sensitive_type := types_str;
                risk_description := ("表 " ++ name ++ " 包含敏感信息: " ++ types_str)%string;
                detected_value :=
                  (join "、" (firstn 2 sample_values)
                   ++ (if (2 <? List.length sample_values)%nat then "..." else ""))%string;
                record_count := get_default table "总条数" (PyInt 0);
                suggestion := ("对包含" ++ types_str ++ "的字段进行加密或脱敏处理")%string |}]
    end
  else ret [].

(** lines 669-710 *)
Definition database_findings (acc : list finding)
    (entry : string * list (dict pyvalue)) : M (list finding) :=
  let (database, table_info) := entry in
  foldM (fun acc table => found <- table_findings database table ;; ret (acc ++ found))
        table_info acc.

(** lines 666-755: [audit_results] as it stands before it is sorted *)
Definition collect_audit_results (users : list (dict pyvalue))
    (databases_info : dict (list (dict pyvalue))) : M (list finding) :=
  audit_results <- foldM database_findings databases_info [] ;;
  ret (audit_results ++ flat_map user_findings users).

(** [_generate_audit_summary] *)
Definition _generate_audit_summary (users : list (dict pyvalue))
    (databases_info : dict (list (dict pyvalue))) : M (list finding) :=
  audit_results <- collect_audit_results users databases_info ;;
  ret (sort audit_results).

End WithJson.

End Aggregator.

(** ** The users of the server *)

Module Users.
Import PyStr PyDict PyVal Eff.

(** What the query on [mysql.user] of lines 339-366 gives: the column names
    of [cursor.description] and the rows of [fetchall], or an exception
    with its text. *)
Inductive query_result : Type :=
| Rows (description : list string) (rows : list (list pyvalue))
| QueryFails (e : string).

(** [dict(zip(columns, row))]: the pairs stop with the shorter list, and a
    column name met again takes the later value *)
Definition dict_of_zip (columns : list string) (row : list pyvalue) : dict pyvalue :=
  fold_left (fun d cell => set d (fst cell) (snd cell)) (combine columns row) [].

(** lines 373-376 *)
Definition yes_no (value : pyvalue) : pyvalue :=
  if eq_str value "Y" then PyStr "是"
  else if eq_str value "N" then PyStr "否"
  else value.

(** lines 370-376: one row as a dictionary; the loop over [items()]
    replaces values in place *)
Definition user_info_of (columns : list string) (row : list pyvalue) : dict pyvalue :=
  map (fun item => (fst item, yes_no (snd item))) (dict_of_zip columns row).

(** [get_database_users]: an exception of the cursor is logged and the
    list collected so far, which is empty, is returned *)
Definition get_database_users (answer : query_result) : M (list (dict pyvalue)) :=
  match answer with
  | Rows columns rows =>
      let users := map (user_info_of columns) rows in
      log INFO ("获取到 " ++ of_nat (List.length users) ++ " 个数据库用户")%string ;;;
      ret users
  | QueryFails e =>
      log ERROR ("获取数据库用户失败: " ++ e)%string ;;;
      ret []
  end.

End Users.

(** ** The tables of a database *)

Module Tables.
Import PyStr PyDict PyVal Eff Rules Classifier TableInfo.

(** What a statement sent through the cursor gives: its result, or an
    exception with its text. *)
Inductive answer (A : Type) : Type :=
| Got (a : A)
| Failed (e : string).
Arguments Got {A} a.
Arguments Failed {A} e.

(** The answers of the server for one table: [DESCRIBE] (the column
    names), [SELECT COUNT( * )] and the row fetched at the random offset,
    [None] when [fetchone] finds no row. *)
Record table_answers : Type := {
  table : string;
  describe : answer (list string);
  count : answer Z;
  sample : answer (option (list pyvalue))
}.

(** [USE] and [SHOW TABLES], then the tables in the order of the listing *)
Inductive listing : Type :=
| Listed (tables : list table_answers)
| ListingFails (e : string).

Definition quote : string := String (ascii_of_nat 34) EmptyString.

(** [{"error": "e"}] *)
Definition error_json (e : string) : string :=
  ("{" ++ quote ++ "error" ++ quote ++ ": " ++ quote ++ e ++ quote ++ "}")%string.

Definition fetch_failed : string := error_json "获取失败".

(** lines 501-507 and 514-520: one row of the sheet of a database *)
Definition table_record (name column_value_json sensitive_info_json sensitive_confirmed : string)
    (total_count : Z) : dict pyvalue :=
  [("表名", PyStr name);
   ("字段名和值", PyStr column_value_json);
   ("敏感信息", PyStr sensitive_info_json);
   ("敏感信息确认", PyStr sensitive_confirmed);
   ("总条数", PyInt total_count)].

(** The variables [sensitive_info_json] and [sensitive_confirmed] are
    local to the function, not to one turn of the loop: a turn that does
    not assign them finds what an earlier turn left, or nothing. *)
Definition leftover : Type := (option string * option string)%type.

(** [try: m except Exception as e: ... str(e)] *)
Definition attempt {A} (exception_text : exn -> string) (m : M A) : M (A + string) :=
  match m with
  | (Ok a, l) => (Ok (inl a), l)
  | (Raise e, l) => (Ok (inr (exception_text e)), l)
  end.

(** lines 491-492: [{column: None for column in columns}] *)
Definition empty_dict (columns : list string) : dict pyvalue :=
  fold_left (fun d column => set d column PyNone) columns [].

Section WithEnvironment.
Variable re_match : Re.matcher.
Variable env : rules_file.
(** [json.dumps] on the two dictionaries that are written to the sheet *)
Variable json_dumps_values : dict pyvalue -> string.
Variable json_dumps_info : sensitive_info -> string.
(** [str(e)] for an exception of the engine, and for the
    [UnboundLocalError] on a variable of the given name *)
Variable exception_text : exn -> string.
Variable unbound_text : string -> string.

(** lines 437-498: one turn of the loop up to the [append]: the text for
    字段名和值, the count and the number of columns, or the text of an
    exception that reaches the handler of line 511; and what the two
    variables hold afterwards. *)
Definition table_body (kept : leftover) (t : table_answers)
    : M (((string * Z * nat) + string) * leftover) :=
  match t.(describe) with
  | Failed e => ret (inr e, kept)
  | Got columns =>
      match t.(count) with
      | Failed e => ret (inr e, kept)
      | Got total_count =>
          let has_columns := match columns with [] => false | _ => true end in
          let failed_sample := fun e : string =>
            log WARNING ("获取表 " ++ t.(table) ++ " 随机记录失败: " ++ e)%string ;;;
            ret (inl (fetch_failed, total_count, List.length columns),
                 (Some fetch_failed, Some no)) in
          if (total_count >? 0)%Z && has_columns then
            match t.(sample) with
            | Failed e => failed_sample e
            | Got (Some (v :: record')) =>
                let record := v :: record' in
                identified <-
                  attempt exception_text (identify_sensitive_info re_match env columns record) ;;
                match identified with
                | inr e => failed_sample e
                | inl info =>
                    confirmed <-
                      attempt exception_text (confirm_sensitive_data re_match env info) ;;
                    match confirmed with
                    | inr e => failed_sample e
                    | inl sensitive_confirmed =>
                        ret (inl (json_dumps_values (column_value_dict columns record []),
                                  total_count, List.length columns),
                             (Some (json_dumps_info info), Some sensitive_confirmed))
                    end
                end
            | Got _ => ret (inl ("{}", total_count, List.length columns), kept)
            end
          else if has_columns then
            identified <-
              attempt exception_text
                (identify_sensitive_info re_match env columns
                   (repeat PyNone (List.length columns))) ;;
            match identified with
            | inr e => ret (inr e, kept)
            | inl info =>
                confirmed <-
                  attempt exception_text (confirm_sensitive_data re_match env info) ;;
                match confirmed with
                | inr e => ret (inr e, (Some (json_dumps_info info), snd kept))
                | inl sensitive_confirmed =>
                    ret (inl (json_dumps_values (empty_dict columns),
                              total_count, List.length columns),
                         (Some (json_dumps_info info), Some sensitive_confirmed))
                end
            end
          else ret (inl ("{}", total_count, List.length columns), kept)
      end
  end.

(** lines 436-520: one turn of the loop over the tables *)
Definition table_step (state : leftover * list (dict pyvalue)) (t : table_answers)
    : M (leftover * list (dict pyvalue)) :=
  let (kept, table_info) := state in
  body <- table_body kept t ;;
  let (result, kept') := body in
  let failed := fun e : string =>
    log ERROR ("处理表 " ++ t.(table) ++ " 失败: " ++ e)%string ;;;
    ret (kept', table_info ++ [table_record t.(table) (error_json e) fetch_failed no 0]) in
  match result with
  | inr e => failed e
  | inl (column_value_json, total_count, n_columns) =>
      match kept' with
      | (None, _) => failed (unbound_text "sensitive_info_json")
      | (Some _, None) => failed (unbound_text "sensitive_confirmed")
      | (Some sensitive_info_json, Some sensitive_confirmed) =>
          log DEBUG ("处理表 " ++ t.(table) ++ ": " ++ of_nat n_columns ++ " 个字段, "
                     ++ py_str (PyInt total_count) ++ " 条记录")%string ;;;
          ret (kept', table_info
                      ++ [table_record t.(table) column_value_json sensitive_info_json
                            sensitive_confirmed total_count])
      end
  end.

(** [get_table_info] *)
Definition get_table_info (database : string) (server : listing) : M (list (dict pyvalue)) :=
  match server with
  | ListingFails e =>
      log ERROR ("获取数据库 " ++ database ++ " 表信息失败: " ++ e)%string ;;;
      ret []
  | Listed tables =>
      log INFO ("数据库 " ++ database ++ " 中有 " ++ of_nat (List.length tables)
                ++ " 个表")%string ;;;
      final <- foldM table_step tables ((None, None), []) ;;
      ret (snd final)
  end.

End WithEnvironment.

End Tables.

(** ** Vocabulary of the statements *)

Module Spec.
Import PyStr PyDict PyVal Eff Rules Classifier Aggregator.

(** the Column Match recorded for a column under a category, if any *)
Definition column_match (info : sensitive_info) (rule_name column : string)
    : option field_info :=
  match get info rule_name with
  | Some fields => get fields column
  | None => None
  end.

(** the dictionary the classifier stores for a match *)
Definition match_entry (shown : pyvalue) (is_field_match is_value_match : bool)
    : field_info :=
  FDict [("value", shown);
         ("field_match", PyBool is_field_match);
         ("value_match", PyBool is_value_match)].


(** some Column Match of [info] carries [value_match = True] *)
Definition has_value_match_flag (info : sensitive_info) : bool :=
  existsb (fun detected : string * dict field_info =>
             existsb (fun field : string * field_info =>
                        match snd field with
                        | FDict d =>
                            match get d "value_match" with
                            | Some (PyBool true) => true
                            | _ => false
                            end
                        | FOther _ => false
                        end) (snd detected)) info.

(** the stored value of an entry re-matches a pattern of its category *)
Definition revalidates (re_match : Re.matcher) (rules : dict rule_config)
    (info : sensitive_info) : Prop :=
  exists rule_name fields rule_config column d pattern,
    In (rule_name, fields) info /\
    get rules rule_name = Some rule_config /\
    In (column, FDict d) fields /\
    get_default d "value" PyNone <> PyNone /\
    In pattern (or_default rule_config.(regex_patterns) []) /\
    re_match pattern (strip (py_str (get_default d "value" PyNone))) = Re.Match.

(** [<=] on sort keys: by rank, then by risk type *)
Definition key_leb (a b : nat * string) : bool :=
  (fst a <? fst b)%nat || ((fst a =? fst b)%nat && String.leb (snd a) (snd b)).

Definition key_le (x y : finding) : Prop :=
  key_leb (sort_key x) (sort_key y) = true.

(** the findings of [l] whose sort key is [k], in the order of [l] *)
Definition with_key (k : nat * string) (l : list finding) : list finding :=
  filter (fun x => key_eqb (sort_key x) k) l.

End Spec.

(** ** Sample data *)

Module Examples.
Import PyDict PyVal Classifier.

(** a decoder that reads every text cell as the classification of one
    phone column, and fails on anything else *)
Definition phone_json_loads (v : pyvalue) : option sensitive_info :=
  match v with
  | PyStr _ =>
      Some [("手机号", [("phone", Spec.match_entry (PyStr "13812345678") true true)])]
  | _ => None
  end.

(** a wildcard-host user with data privileges, then a super user from any
    host, then a local user with the file privilege *)
Definition reader : dict pyvalue :=
  [("用户名", PyStr "reader"); ("主机", PyStr "%");
   ("查询权限", PyStr "是"); ("插入权限", PyStr "是"); ("超级权限", PyStr "否")].

Definition root : dict pyvalue :=
  [("用户名", PyStr "root"); ("主机", PyStr "%");
   ("查询权限", PyStr "是"); ("超级权限", PyStr "是"); ("文件权限", PyStr "是")].

Definition backup : dict pyvalue :=
  [("用户名", PyStr "backup"); ("主机", PyStr "localhost");
   ("文件权限", PyStr "是"); ("查询权限", PyStr "是")].

Definition users : list (dict pyvalue) := [reader; root; backup].

Definition databases_info : dict (list (dict pyvalue)) :=
  [("shop",
    [[("表名", PyStr "logs"); ("敏感信息", PyStr "{}");
      ("敏感信息确认", PyStr "否"); ("总条数", PyInt 50)];
     [("表名", PyStr "customers"); ("敏感信息", PyStr "{...}");
      ("敏感信息确认", PyStr "是"); ("总条数", PyInt 100)]])].

(** stand-ins for [json.dumps] and for the texts of exceptions: the
    names of the keys, and fixed texts *)
Definition dumps_values (d : dict pyvalue) : string := PyStr.join "," (keys d).
Definition dumps_info (info : sensitive_info) : string := PyStr.join "," (keys info).
Definition exception_text (e : Eff.exn) : string := "error".
Definition unbound_text (name : string) : string := name.

(** a table with a sampled row, one whose row has gone, and one without
    rows *)
Definition customers : Tables.table_answers :=
  {| Tables.table := "customers";
     Tables.describe := Tables.Got ["id"; "phone"];
     Tables.count := Tables.Got 100%Z;
     Tables.sample := Tables.Got (Some [PyInt 1; PyStr "13812345678"]) |}.

Definition sessions : Tables.table_answers :=
  {| Tables.table := "sessions";
     Tables.describe := Tables.Got ["id"; "token"];
     Tables.count := Tables.Got 3%Z;
     Tables.sample := Tables.Got None |}.

Definition archive : Tables.table_answers :=
  {| Tables.table := "archive";
     Tables.describe := Tables.Got ["id"; "mobile"];
     Tables.count := Tables.Got 0%Z;
     Tables.sample := Tables.Failed "not asked" |}.

End Examples.

(** ** Vocabulary for one cell of the sampled record *)

Module Cell.
Import PyStr PyDict PyVal Rules Classifier.

(** lines 176-185: the value gets past the two rejections; a null value is
    never rejected *)
Definition accepted (settings : settings_config) (value : pyvalue) : bool :=
  match value with
  | PyNone => true
  | _ =>
      let str_value := strip (py_str value) in
      negb (or_default settings.(exclude_test_data) true
            && is_test_data (or_default settings.(test_patterns) []) str_value)
      && negb (Z.of_nat (String.length str_value)
               >? or_default settings.(max_field_length) 100)%Z
  end.

(** lines 166-172: [is_field_match] for a column under a rule *)
Definition field_flag (settings : settings_config) (rc : rule_config) (column : string) : bool :=
  field_name_matches (or_default settings.(case_sensitive) false) column
    (or_default rc.(field_keywords) []).

(** lines 175-194: [is_value_match] for a value under a rule *)
Definition value_flag (re_match : Re.matcher) (rc : rule_config) (value : pyvalue) : bool :=
  match value with
  | PyNone => false
  | _ => any_pattern_matches re_match (or_default rc.(regex_patterns) []) (strip (py_str value))
  end.

(** every entry of [info] was recorded for a cell of [cells] under an
    enabled rule of [rules], with the flags of that cell and rule *)
Definition well_recorded (re_match : Re.matcher) (settings : settings_config)
    (rules : dict rule_config) (cells : list (string * pyvalue))
    (info : sensitive_info) : Prop :=
  forall rule_name fields column entry,
    In (rule_name, fields) info -> In (column, entry) fields ->
    exists value rc,
      In (column, value) cells /\
      In (rule_name, rc) rules /\
      list_in rule_name (or_default settings.(enabled_rules) []) = true /\
      accepted settings value = true /\
      (field_flag settings rc column || value_flag re_match rc value) = true /\
      entry = Spec.match_entry (display_value value)
                (field_flag settings rc column) (value_flag re_match rc value).

(** no category of [info] is left without a column *)
Definition no_empty_category (info : sensitive_info) : Prop :=
  forall rule_name fields, In (rule_name, fields) info -> fields <> [].

End Cell.

(** ** Vocabulary for the audit sheet *)

Module Report.
Import PyStr PyDict PyVal Classifier Aggregator.

(** [f] is the finding of a table of [database] that was confirmed *)
Definition traced (database : string) (table : dict pyvalue) (f : finding) : Prop :=
  eq_str (get_default table "敏感信息确认" PyNone) yes = true /\
  f.(risk_type) = "敏感信息" /\
  f.(risk_level) = "高" /\
  f.(check_item) = database /\
  f.(table_name) = get_default table "表名" (PyStr "") /\
  f.(record_count) = get_default table "总条数" (PyInt 0).

(** the three sort keys that findings can have *)
Definition sensitive_key : nat * string := (1, "敏感信息").
Definition high_privilege_key : nat * string := (1, "权限风险").
Definition medium_privilege_key : nat * string := (2, "权限风险").

End Report.

(** ** Vocabulary for the datasource configuration *)

Module ConfigLines.
Import PyStr Config.




End ConfigLines.

(** ** Vocabulary for the sheet of a database *)

Module TableRows.
Import PyDict PyVal Classifier Tables.

(** what a turn of the loop writes under 敏感信息 and 敏感信息确认 when the
    two variables hold [kept]: their values, or those of the error row when
    one of them is unbound *)
Definition effective (kept : leftover) : string * string :=
  match kept with
  | (Some sensitive_info_json, Some sensitive_confirmed) =>
      (sensitive_info_json, sensitive_confirmed)
  | _ => (fetch_failed, no)
  end.

(** the cells of a row under 敏感信息 and 敏感信息确认 *)
Definition sensitive_cells (row : dict pyvalue) : option pyvalue * option pyvalue :=
  (get row "敏感信息", get row "敏感信息确认").

(** no row was fetched although the table has columns and a positive count *)
Definition sample_missing (t : table_answers) : Prop :=
  exists columns total_count,
    t.(describe) = Got columns /\ columns <> [] /\
    t.(count) = Got total_count /\ (0 < total_count)%Z /\
    (t.(sample) = Got None \/ t.(sample) = Got (Some [])).

End TableRows.

(** * Properties *)

(** ** Computations *)

Module EffFacts.
Import Eff.

Lemma outcome_bind {A B} (m : M A) (k : A -> M B) :
  outcome (bind m k) =
  match outcome m with
  | Ok a => outcome (k a)
  | Raise e => Raise e
  end.
Proof.
  destruct m as [[a | e] l]; simpl; [ | reflexivity ].
  destruct (k a); reflexivity.
Qed.

Lemma outcome_log_then {B} lv msg (k : M B) :
  outcome (bind (log lv msg) (fun _ => k)) = outcome k.
Proof. rewrite outcome_bind. reflexivity. Qed.

(** A loop whose body never raises and keeps [P] never raises and keeps
    [P]. *)
Lemma foldM_invariant {A B} (body : A -> B -> M A) (P : A -> Prop) (l : list B) :
  (forall acc x, In x l -> P acc -> exists acc', outcome (body acc x) = Ok acc' /\ P acc') ->
  forall acc, P acc -> exists acc', outcome (foldM body l acc) = Ok acc' /\ P acc'.
Proof.
  induction l as [ | x l IH]; intros Hbody acc Hacc; simpl.
  - exists acc; split; [ reflexivity | assumption ].
  - destruct (Hbody acc x (or_introl eq_refl) Hacc) as (acc1 & H1 & P1).
    rewrite outcome_bind, H1.
    apply IH; [ | assumption ].
    intros acc2 y Hy; apply Hbody; right; assumption.
Qed.

End EffFacts.

(** ** Dictionaries *)

Module DictFacts.
Import PyDict.

Lemma get_set_same {V} (d : dict V) k v : get (set d k v) k = Some v.
Proof.
  induction d as [ | [k' v'] d IH]; simpl.
  - rewrite String.eqb_refl; reflexivity.
  - destruct (String.eqb k k') eqn:E; simpl; rewrite E; [ reflexivity | exact IH ].
Qed.

Lemma get_set_other {V} (d : dict V) k k' v : k' <> k -> get (set d k v) k' = get d k'.
Proof.
  intros Hne; induction d as [ | [k0 v0] d IH]; simpl.
  - apply String.eqb_neq in Hne; rewrite Hne; reflexivity.
  - destruct (String.eqb k k0) eqn:E; simpl.
    + apply String.eqb_eq in E; subst k0.
      apply String.eqb_neq in Hne; rewrite Hne; reflexivity.
    + destruct (String.eqb k' k0); [ reflexivity | exact IH ].
Qed.

Lemma in_set {V} (d : dict V) k v k' v' :
  In (k', v') (set d k v) -> (k' = k /\ v' = v) \/ In (k', v') d.
Proof.
  induction d as [ | [k0 v0] d IH]; simpl.
  - intros [H | []]; inversion H; auto.
  - destruct (String.eqb k k0) eqn:E; simpl.
    + apply String.eqb_eq in E; subst k0.
      intros [H | H]; [ inversion H; auto | auto ].
    + intros [H | H]; [ auto | ].
      destruct (IH H) as [? | ?]; auto.
Qed.

Lemma get_in {V} (d : dict V) k v : get d k = Some v -> In (k, v) d.
Proof.
  induction d as [ | [k0 v0] d IH]; simpl; [ discriminate | ].
  destruct (String.eqb k k0) eqn:E.
  - apply String.eqb_eq in E; subst k0. intros H; inversion H; auto.
  - auto.
Qed.

End DictFacts.

(** ** The rule store *)

Import PyStr PyDict PyVal Eff Rules Classifier.

Lemma load_sensitive_rules_ok (env : rules_file) :
  exists cfg, outcome (load_sensitive_rules env) = Ok cfg.
Proof. destruct env; simpl; eauto. Qed.

(** C8, as amended.  [load_sensitive_rules] never raises.  It returns what
    the file holds when the file decodes, and the built-in default
    otherwise: when the file is absent, with one record logged at level
    WARNING; when opening or decoding it fails, with one record logged at
    level ERROR.  The default has the category 手机号 with the keywords
    phone, mobile, telephone and the single pattern [^1[3-9]\d{9}$]. *)
Theorem load_sensitive_rules_degrades_to_default :
  (forall env : rules_file,
     exists cfg,
       outcome (load_sensitive_rules env) = Ok cfg /\
       match env with
       | FileHolds held =>
           cfg = held /\ logs (load_sensitive_rules env) = []
       | FileAbsent =>
           cfg = _get_default_rules /\
           exists msg, logs (load_sensitive_rules env) = [(WARNING, msg)]
       | FileFails e =>
           cfg = _get_default_rules /\
           exists msg, logs (load_sensitive_rules env) = [(ERROR, msg)]
       end) /\
  get (or_default _get_default_rules.(sensitive_rules) []) "手机号" =
    Some {| field_keywords := Some ["phone"; "mobile"; "telephone"];
            regex_patterns := Some ["^1[3-9]\d{9}$"];
            description := Some "中国手机号" |}.
Proof.
  split; [ | reflexivity ].
  intros [ | e | held]; simpl; eexists; (split; [ reflexivity | ]);
    split; try reflexivity; eexists; reflexivity.
Qed.

(** C8, as stated, fails: a rule file that does not decode is reported at
    level ERROR, and no WARNING record is logged. *)
Lemma load_failure_is_not_logged_as_warning :
  outcome (load_sensitive_rules (FileFails "Expecting value: line 1 column 1 (char 0)"))
    = Ok _get_default_rules /\
  ~ (exists msg,
       In (WARNING, msg)
          (logs (load_sensitive_rules (FileFails "Expecting value: line 1 column 1 (char 0)")))).
Proof.
  split; [ reflexivity | ].
  intros [msg [H | []]]. discriminate H.
Qed.

(** ** The classifier *)

Section ClassifierProperties.
Variable re_match : Re.matcher.

(** C5.  When the record is empty or is not as long as the list of
    columns, [identify_sensitive_info] returns the empty dictionary,
    whatever the rule file holds. *)
Theorem identify_mismatched_record_is_empty
    (env : rules_file) (columns : list string) (record : list pyvalue) :
  record = [] \/ List.length record <> List.length columns ->
  outcome (identify_sensitive_info re_match env columns record) = Ok [].
Proof.
  intros H. unfold identify_sensitive_info.
  rewrite EffFacts.outcome_bind.
  destruct (load_sensitive_rules_ok env) as (cfg & ->).
  destruct H as [-> | Hlen]; [ reflexivity | ].
  apply Nat.eqb_neq in Hlen. rewrite Hlen.
  rewrite orb_true_r. reflexivity.
Qed.

End ClassifierProperties.

Lemma identify_mismatched_record_is_empty_witness :
  (@nil pyvalue = [] \/ List.length (@nil pyvalue) <> List.length ["id"; "phone"]) /\
  outcome (identify_sensitive_info ReFragment.re_match FileAbsent ["id"; "phone"] []) = Ok [] /\
  outcome (identify_sensitive_info ReFragment.re_match FileAbsent ["id"; "phone"]
             [PyStr "13812345678"]) = Ok [].
Proof.
  split; [ left; reflexivity | ].
  split.
  - apply (identify_mismatched_record_is_empty ReFragment.re_match FileAbsent).
    left; reflexivity.
  - apply (identify_mismatched_record_is_empty ReFragment.re_match FileAbsent).
    right; simpl; lia.
Defined.

(** *** Facts about the loops of the classifier *)

Module ClassifierFacts.
Import Spec.

Lemma in_combine_nth_error {A B} (l : list A) (l' : list B) a b :
  In (a, b) (combine l l') <->
  exists j, nth_error l j = Some a /\ nth_error l' j = Some b.
Proof.
  revert l'; induction l as [ | x l IH]; intros [ | y l']; simpl.
  - split; [ intros [] | intros ([ | j] & H & _); discriminate H ].
  - split; [ intros [] | intros ([ | j] & H & _); discriminate H ].
  - split; [ intros [] | intros ([ | j] & _ & H); discriminate H ].
  - split.
    + intros [H | H].
      * inversion H; subst. exists 0; auto.
      * apply IH in H. destruct H as (j & H1 & H2). exists (S j); auto.
    + intros ([ | j] & H1 & H2); simpl in *.
      * left; congruence.
      * right; apply IH; eauto.
Qed.

(** A column that bears its name alone is sampled once. *)
Lemma sampled_once (columns : list string) (record : list pyvalue) i column value :
  nth_error columns i = Some column ->
  nth_error record i = Some value ->
  (forall j, nth_error columns j = Some column -> j = i) ->
  In (column, value) (combine columns record) /\
  forall v, In (column, v) (combine columns record) -> v = value.
Proof.
  intros Hc Hv Huniq; split.
  - apply in_combine_nth_error; eauto.
  - intros v Hin. apply in_combine_nth_error in Hin.
    destruct Hin as (j & Hj & Hjv).
    apply Huniq in Hj; subst j. congruence.
Qed.

Lemma column_match_record_match (info : sensitive_info) r c v fm vm r' c' :
  column_match (record_match info r c v fm vm) r' c' =
  if (fm || vm) && String.eqb r' r && String.eqb c' c
  then Some (match_entry (display_value v) fm vm)
  else column_match info r' c'.
Proof.
  unfold record_match, column_match.
  destruct (fm || vm); simpl; [ | reflexivity ].
  destruct (String.eqb r' r) eqn:Er; simpl.
  - apply String.eqb_eq in Er; subst r'.
    rewrite DictFacts.get_set_same.
    destruct (String.eqb c' c) eqn:Ec.
    + apply String.eqb_eq in Ec; subst c'.
      rewrite DictFacts.get_set_same. reflexivity.
    + apply String.eqb_neq in Ec.
      rewrite DictFacts.get_set_other by assumption.
      unfold get_default. destruct (get info r); reflexivity.
  - apply String.eqb_neq in Er.
    rewrite DictFacts.get_set_other by assumption. reflexivity.
Qed.

Section WithMatcher.
Variable re_match : Re.matcher.

(** The flag computed by the classifier is the one the confirmation policy
    computes; only the logging differs. *)
Lemma value_matches_outcome (patterns : list string) (s : string) :
  outcome (value_matches re_match patterns s) = Ok (any_pattern_matches re_match patterns s).
Proof.
  induction patterns as [ | p patterns IH]; cbn [value_matches any_pattern_matches];
    [ reflexivity | ].
  destruct (re_match p s); [ reflexivity | exact IH | ].
  rewrite EffFacts.outcome_log_then. exact IH.
Qed.

(** One step of the loop over the rules never raises, and either leaves the
    result alone or records a match for its own category and column. *)
Lemma check_rule_outcome settings column value info rule :
  exists fm vm,
    outcome (check_rule re_match settings column value info rule) =
    Ok (record_match info (fst rule) column value fm vm).
Proof.
  destruct rule as [rule_name rc]; unfold check_rule; simpl.
  assert (Hskip : exists fm vm : bool,
             @Ok sensitive_info info = Ok (record_match info rule_name column value fm vm)).
  { exists false, false; reflexivity. }
  destruct (negb _); [ exact Hskip | ].
  destruct value; try (eexists _, false; reflexivity);
    (destruct (_ && _); [ exact Hskip | ]; destruct (_ >? _)%Z; [ exact Hskip | ];
     rewrite EffFacts.outcome_bind, value_matches_outcome; eexists _, _; reflexivity).
Qed.

(** A value that carries a test-data marker stops the step before anything
    is recorded. *)
Lemma check_rule_test_data settings column value info rule :
  value <> PyNone ->
  or_default settings.(exclude_test_data) true = true ->
  is_test_data (or_default settings.(test_patterns) []) (strip (py_str value)) = true ->
  outcome (check_rule re_match settings column value info rule) = Ok info.
Proof.
  intros Hv Hex Htest. destruct rule as [rule_name rc]; unfold check_rule.
  destruct (negb _); [ reflexivity | ].
  destruct value; try congruence; rewrite Hex, Htest; reflexivity.
Qed.

(** On a null value the step goes straight to the recording. *)
Lemma check_rule_null settings column info rule_name rc :
  outcome (check_rule re_match settings column PyNone info (rule_name, rc)) =
  Ok (if list_in rule_name (or_default settings.(enabled_rules) [])
      then record_match info rule_name column PyNone
             (field_name_matches (or_default settings.(case_sensitive) false) column
                (or_default rc.(field_keywords) [])) false
      else info).
Proof.
  unfold check_rule. destruct (list_in _ _); reflexivity.
Qed.

(** A step for another column leaves the entry of [column] alone. *)
Lemma check_rule_other_column settings column' value info rule rule_name column :
  column' <> column ->
  exists info',
    outcome (check_rule re_match settings column' value info rule) = Ok info' /\
    column_match info' rule_name column = column_match info rule_name column.
Proof.
  intros Hne.
  destruct (check_rule_outcome settings column' value info rule) as (fm & vm & H).
  eexists; split; [ exact H | ].
  rewrite column_match_record_match.
  assert (E : String.eqb column column' = false)
    by (apply String.eqb_neq; congruence).
  rewrite E, andb_false_r. reflexivity.
Qed.

Lemma check_column_other_column settings rules column' value info rule_name column
    (P : option field_info -> Prop) :
  column' <> column ->
  P (column_match info rule_name column) ->
  exists info',
    outcome (check_column re_match settings rules info (column', value)) = Ok info' /\
    P (column_match info' rule_name column).
Proof.
  intros Hne HP. unfold check_column.
  apply (EffFacts.foldM_invariant _ (fun i => P (column_match i rule_name column)));
    [ | assumption ].
  intros acc rule _ Hacc.
  destruct (check_rule_other_column settings column' value acc rule rule_name column Hne)
    as (acc' & H & E).
  exists acc'; split; [ exact H | rewrite E; exact Hacc ].
Qed.

End WithMatcher.

End ClassifierFacts.

(** *** Test data and null values *)

Section SampledValues.
Import Spec ClassifierFacts.
Variable re_match : Re.matcher.

(** C3.  Let the rule file in force enable the exclusion of test data
    (the default), and let the value sampled for a column be non-null with
    a stripped text that contains, case-folded, one of the configured
    markers.  Then no step of the classifier for that column and value
    records anything, under any rule; and when no other column bears the
    same name, the result of [identify_sensitive_info] has no Column Match
    for that column under any category, whatever the keywords are. *)
Theorem identify_skips_test_data
    (env : rules_file) (cfg : rules_config) (columns : list string)
    (record : list pyvalue) (i : nat) (column : string) (value : pyvalue) :
  let settings := or_default cfg.(settings) no_settings in
  outcome (load_sensitive_rules env) = Ok cfg ->
  or_default settings.(exclude_test_data) true = true ->
  nth_error columns i = Some column ->
  nth_error record i = Some value ->
  value <> PyNone ->
  is_test_data (or_default settings.(test_patterns) []) (strip (py_str value)) = true ->
  (forall info rule,
     outcome (check_rule re_match settings column value info rule) = Ok info) /\
  ((forall j, nth_error columns j = Some column -> j = i) ->
   exists info,
     outcome (identify_sensitive_info re_match env columns record) = Ok info /\
     forall rule_name, column_match info rule_name column = None).
Proof.
  intros settings Hload Hex Hc Hv Hnn Htest.
  assert (Hstep : forall info rule,
             outcome (check_rule re_match settings column value info rule) = Ok info)
    by (intros; apply check_rule_test_data; assumption).
  split; [ exact Hstep | ].
  intros Huniq.
  destruct (sampled_once columns record i column value Hc Hv Huniq) as [_ Honly].
  unfold identify_sensitive_info.
  rewrite EffFacts.outcome_bind, Hload. fold settings.
  destruct (_ || _); [ exists []; split; [ reflexivity | reflexivity ] | ].
  apply (EffFacts.foldM_invariant _
           (fun info => forall rule_name, column_match info rule_name column = None));
    [ | reflexivity ].
  intros acc [column' value'] Hin Hacc.
  destruct (string_dec column' column) as [-> | Hne].
  - apply Honly in Hin; subst value'.
    unfold check_column.
    apply (EffFacts.foldM_invariant _
             (fun info => forall rule_name, column_match info rule_name column = None));
      [ | assumption ].
    intros acc' rule _ Hacc'. exists acc'; split; [ apply Hstep | assumption ].
  - assert (Hall : forall rules info,
               (forall rule_name, column_match info rule_name column = None) ->
               exists info',
                 outcome (foldM (check_rule re_match settings column' value') rules info)
                   = Ok info' /\
                 forall rule_name, column_match info' rule_name column = None).
    { intros rules info Hinfo.
      apply (EffFacts.foldM_invariant _
               (fun info => forall rule_name, column_match info rule_name column = None));
        [ | assumption ].
      intros a rule _ Ha.
      destruct (check_rule_outcome re_match settings column' value' a rule)
        as (fm & vm & H).
      eexists; split; [ exact H | ].
      intros rule_name. rewrite column_match_record_match.
      assert (E : String.eqb column column' = false)
        by (apply String.eqb_neq; congruence).
      rewrite E, andb_false_r. apply Ha. }
    apply Hall; assumption.
Qed.

(** C9.  Let the value sampled for a column be null, let a category of the
    rule file be enabled, and let one of its keywords be a substring of the
    column name, both case-folded unless the rule file asks for case
    sensitivity.  Then, when no other column bears the same name, the
    result of [identify_sensitive_info] holds for that category and column
    the Column Match with value null, [field_match] true and [value_match]
    false.  This holds whatever the test-data markers and the maximum
    length are: neither rejection is applied to a null value. *)
Theorem identify_null_value_field_match
    (env : rules_file) (cfg : rules_config) (columns : list string)
    (record : list pyvalue) (i : nat) (column rule_name keyword : string)
    (rc : rule_config) :
  let settings := or_default cfg.(settings) no_settings in
  let folded := fun s : string =>
    if negb (or_default settings.(case_sensitive) false) then lower s else s in
  outcome (load_sensitive_rules env) = Ok cfg ->
  List.length record = List.length columns ->
  nth_error columns i = Some column ->
  nth_error record i = Some PyNone ->
  (forall j, nth_error columns j = Some column -> j = i) ->
  In (rule_name, rc) (or_default cfg.(sensitive_rules) []) ->
  list_in rule_name (or_default settings.(enabled_rules) []) = true ->
  In keyword (or_default rc.(field_keywords) []) ->
  str_in (folded keyword) (folded column) = true ->
  exists info,
    outcome (identify_sensitive_info re_match env columns record) = Ok info /\
    column_match info rule_name column = Some (match_entry PyNone true false).
Proof.
  intros settings folded Hload Hlen Hc Hv Huniq Hrule Hen Hkw Hsub.
  destruct (sampled_once columns record i column PyNone Hc Hv Huniq) as [Hin Honly].
  set (Q := fun info : sensitive_info =>
              column_match info rule_name column = Some (match_entry PyNone true false)).
  assert (Hfm : field_name_matches (or_default settings.(case_sensitive) false) column
                  (or_default rc.(field_keywords) []) = true).
  { unfold field_name_matches. apply existsb_exists. exists keyword; split; assumption. }
  (* the rules, for the null cell of [column] *)
  assert (Hrules : forall rules info,
             Q info \/ In (rule_name, rc) rules ->
             exists info',
               outcome (foldM (check_rule re_match settings column PyNone) rules info)
                 = Ok info' /\ Q info').
  { induction rules as [ | [r' rc'] rules IH]; intros info Hq.
    - destruct Hq as [Hq | []]. exists info; split; [ reflexivity | assumption ].
    - cbn [foldM]. rewrite EffFacts.outcome_bind, check_rule_null.
      apply IH.
      destruct Hq as [Hq | [Heq | Hlater]].
      + left. destruct (list_in r' _); [ | assumption ].
        unfold Q. rewrite column_match_record_match.
        rewrite orb_false_r, String.eqb_refl, andb_true_r.
        destruct (field_name_matches _ _ (or_default rc'.(field_keywords) []));
          simpl; [ | exact Hq ].
        destruct (String.eqb rule_name r'); [ reflexivity | exact Hq ].
      + left. inversion Heq; subst r' rc'. rewrite Hen.
        unfold Q. rewrite column_match_record_match, Hfm.
        rewrite !String.eqb_refl. reflexivity.
      + right; assumption. }
  (* the cells *)
  assert (Hcells : forall cells info,
             (forall v, In (column, v) cells -> v = PyNone) ->
             Q info \/ In (column, PyNone) cells ->
             exists info',
               outcome (foldM (check_column re_match settings
                                 (or_default cfg.(sensitive_rules) [])) cells info)
                 = Ok info' /\ Q info').
  { induction cells as [ | [c v] cells IH]; intros info Hnull Hq.
    - destruct Hq as [Hq | []]. exists info; split; [ reflexivity | assumption ].
    - cbn [foldM]. rewrite EffFacts.outcome_bind.
      assert (Hnull' : forall v0, In (column, v0) cells -> v0 = PyNone)
        by (intros v0 H0; apply Hnull; right; assumption).
      destruct (string_dec c column) as [-> | Hne].
      + assert (v = PyNone) by (apply Hnull; left; reflexivity); subst v.
        destruct (Hrules (or_default cfg.(sensitive_rules) []) info (or_intror Hrule))
          as (info1 & H1 & Q1).
        unfold check_column at 1. rewrite H1. apply IH; auto.
      + destruct Hq as [Hq | [Heq | Hlater]].
        * destruct (check_column_other_column re_match settings
                      (or_default cfg.(sensitive_rules) []) c v info rule_name column
                      (fun o => o = Some (match_entry PyNone true false)) Hne Hq)
            as (info1 & H1 & Q1).
          rewrite H1. apply IH; auto.
        * inversion Heq; congruence.
        * destruct (check_column_other_column re_match settings
                      (or_default cfg.(sensitive_rules) []) c v info rule_name column
                      (fun _ => True) Hne I)
            as (info1 & H1 & _).
          rewrite H1. apply IH; auto. }
  unfold identify_sensitive_info.
  rewrite EffFacts.outcome_bind, Hload. fold settings.
  assert (Hguard : (match record with [] => true | _ => false end
                    || negb (List.length record =? List.length columns)%nat) = false).
  { rewrite Hlen, Nat.eqb_refl. destruct record; [ destruct i; discriminate Hv | reflexivity ]. }
  rewrite Hguard.
  apply Hcells; [ exact Honly | right; exact Hin ].
Qed.

End SampledValues.

Lemma identify_skips_test_data_witness :
  exists info,
    outcome (identify_sensitive_info ReFragment.re_match FileAbsent
               ["id"; "phone"] [PyInt 7; PyStr " Test-13812345678 "]) = Ok info /\
    forall rule_name, Spec.column_match info rule_name "phone" = None.
Proof.
  apply (identify_skips_test_data ReFragment.re_match FileAbsent _get_default_rules
           ["id"; "phone"] [PyInt 7; PyStr " Test-13812345678 "] 1 "phone"
           (PyStr " Test-13812345678 "));
    try reflexivity.
  - discriminate.
  - intros [ | [ | j]] H; simpl in H;
      [ discriminate H | reflexivity | destruct j; discriminate H ].
Defined.

Lemma identify_null_value_field_match_witness :
  exists info,
    outcome (identify_sensitive_info ReFragment.re_match FileAbsent
               ["id"; "Phone"] [PyInt 7; PyNone]) = Ok info /\
    Spec.column_match info "手机号" "Phone" = Some (Spec.match_entry PyNone true false).
Proof.
  apply (identify_null_value_field_match ReFragment.re_match FileAbsent _get_default_rules
           ["id"; "Phone"] [PyInt 7; PyNone] 1 "Phone" "手机号" "phone"
           {| field_keywords := Some ["phone"; "mobile"; "telephone"];
              regex_patterns := Some ["^1[3-9]\d{9}$"];
              description := Some "中国手机号" |});
    try reflexivity.
  - intros [ | [ | j]] H; simpl in H;
      [ discriminate H | reflexivity | destruct j; discriminate H ].
  - left; reflexivity.
  - left; reflexivity.
Defined.

(** ** The confirmation policy *)

Module ConfirmFacts.
Import Spec.

Section WithMatcher.
Variable re_match : Re.matcher.

Lemma any_pattern_matches_iff (patterns : list string) (s : string) :
  any_pattern_matches re_match patterns s = true <->
  exists pattern, In pattern patterns /\ re_match pattern s = Re.Match.
Proof.
  induction patterns as [ | p patterns IH]; simpl.
  - split; [ discriminate | intros (? & [] & _) ].
  - destruct (re_match p s) eqn:E.
    + split; [ intros _; exists p; auto | reflexivity ].
    + rewrite IH. split.
      * intros (q & Hq & Hm); exists q; auto.
      * intros (q & [<- | Hq] & Hm); [ congruence | exists q; auto ].
    + rewrite IH. split.
      * intros (q & Hq & Hm); exists q; auto.
      * intros (q & [<- | Hq] & Hm); [ congruence | exists q; auto ].
Qed.


Lemma field_confirms_iff (patterns : list string) (field : string * field_info) :
  field_confirms re_match patterns field = true <->
  exists d pattern,
    snd field = FDict d /\
    get_default d "value" PyNone <> PyNone /\
    In pattern patterns /\
    re_match pattern (strip (py_str (get_default d "value" PyNone))) = Re.Match.
Proof.
  unfold field_confirms. destruct (snd field) as [d | v].
  - destruct (get_default d "value" PyNone) eqn:Ev;
      try (rewrite any_pattern_matches_iff; split;
           [ intros (p & Hp & Hm); exists d, p; rewrite Ev;
             repeat split; [ discriminate | assumption | assumption ]
           | intros (d' & p & Hd & _ & Hp & Hm); inversion Hd; subst d';
             rewrite Ev in Hm; exists p; auto ]).
    split; [ discriminate | ].
    intros (d' & p & Hd & Hnn & _); inversion Hd; subst d'. congruence.
  - split; [ discriminate | intros (d & p & Hd & _); discriminate Hd ].
Qed.

Lemma confirm_outcome (env : rules_file) (cfg : rules_config) (info : sensitive_info) :
  outcome (load_sensitive_rules env) = Ok cfg ->
  outcome (confirm_sensitive_data re_match env info) =
  Ok (if existsb (rule_confirms re_match (or_default cfg.(sensitive_rules) [])) info
      then yes else no).
Proof.
  intros Hload. unfold confirm_sensitive_data.
  destruct info as [ | x info]; [ reflexivity | ].
  rewrite EffFacts.outcome_bind, Hload. reflexivity.
Qed.

Lemma confirms_iff_revalidates (rules : dict rule_config) (info : sensitive_info) :
  existsb (rule_confirms re_match rules) info = true <-> revalidates re_match rules info.
Proof.
  rewrite existsb_exists. unfold revalidates, rule_confirms. split.
  - intros ([rule_name fields] & Hin & H); simpl in H.
    destruct (get rules rule_name) as [rc | ] eqn:Hget; [ | discriminate ].
    apply existsb_exists in H. destruct H as ([column fi] & Hf & H).
    apply field_confirms_iff in H. destruct H as (d & p & Hd & Hnn & Hp & Hm).
    simpl in Hd; subst fi.
    exists rule_name, fields, rc, column, d, p. auto 10.
  - intros (rule_name & fields & rc & column & d & p & Hin & Hget & Hf & Hnn & Hp & Hm).
    exists (rule_name, fields); split; [ assumption | ]. simpl. rewrite Hget.
    apply existsb_exists. exists (column, FDict d); split; [ assumption | ].
    apply field_confirms_iff. exists d, p; auto.
Qed.

End WithMatcher.

End ConfirmFacts.

Section ConfirmationProperties.
Import Spec ConfirmFacts.
Variable re_match : Re.matcher.

(** C1, as amended.  [confirm_sensitive_data] answers 是 exactly when some
    entry of its argument, under a category of the rule file in force, is a
    dictionary whose stored value is not null and, stringified and
    stripped, is matched by one of the patterns of that category; in every
    other case it answers 否.  The stored flags [field_match] and
    [value_match] are not read: an entry whose stored value is matched by no
    pattern never confirms, and none of the conditions mentions a flag. *)
Theorem confirm_iff_stored_value_revalidates
    (env : rules_file) (cfg : rules_config) (info : sensitive_info) :
  outcome (load_sensitive_rules env) = Ok cfg ->
  (outcome (confirm_sensitive_data re_match env info) = Ok yes <->
   revalidates re_match (or_default cfg.(sensitive_rules) []) info) /\
  (~ revalidates re_match (or_default cfg.(sensitive_rules) []) info ->
   outcome (confirm_sensitive_data re_match env info) = Ok no).
Proof.
  intros Hload. rewrite (confirm_outcome re_match env cfg info Hload).
  rewrite <- confirms_iff_revalidates.
  destruct (existsb _ info); split.
  - split; reflexivity.
  - intros H; exfalso; apply H; reflexivity.
  - split; [ intros H; inversion H | discriminate ].
  - reflexivity.
Qed.


End ConfirmationProperties.

Lemma confirm_iff_stored_value_revalidates_witness :
  let info := [("手机号", [("phone", Spec.match_entry (PyStr "13812345678") true true)])] in
  (outcome (confirm_sensitive_data ReFragment.re_match FileAbsent info) = Ok yes <->
   Spec.revalidates ReFragment.re_match
     (or_default _get_default_rules.(sensitive_rules) []) info) /\
  (~ Spec.revalidates ReFragment.re_match
       (or_default _get_default_rules.(sensitive_rules) []) info ->
   outcome (confirm_sensitive_data ReFragment.re_match FileAbsent info) = Ok no).
Proof.
  intros info.
  apply (confirm_iff_stored_value_revalidates ReFragment.re_match FileAbsent
           _get_default_rules info).
  reflexivity.
Defined.

(** C1, as stated, fails.  The verdict is 是 for a mapping in which no
    Column Match has [value_match] set; and the same happens on a result of
    the classifier itself, under a rule file whose pattern matches the
    50-character display form of a longer value but not the value. *)
Lemma confirm_without_value_match_flag :
  (let info := [("手机号", [("phone", Spec.match_entry (PyStr "13812345678") true false)])] in
   outcome (confirm_sensitive_data ReFragment.re_match FileAbsent info) = Ok yes /\
   Spec.has_value_match_flag info = false) /\
  (let env := FileHolds
       {| sensitive_rules := Some
            [("serial", {| field_keywords := Some ["serial"];
                           regex_patterns := Some ["^\d{50}\."];
                           description := None |})];
          settings := Some
            {| enabled_rules := Some ["serial"]; case_sensitive := None;
               max_field_length := None; exclude_test_data := None;
               test_patterns := None |} |} in
   exists info,
     outcome (identify_sensitive_info ReFragment.re_match env ["serial"]
                [PyStr "123456789012345678901234567890123456789012345678901"]) = Ok info /\
     Spec.has_value_match_flag info = false /\
     outcome (confirm_sensitive_data ReFragment.re_match env info) = Ok yes).
Proof.
  split.
  - split; reflexivity.
  - eexists; split; [ reflexivity | split; reflexivity ].
Qed.


(** ** Displayed values *)

Module DisplayFacts.
Import Spec TableInfo.








End DisplayFacts.




(** ** The datasource configuration *)

(** C4 fails on the code.  A line with five fields whose third field is not
    an integer makes [parse_datasource_config] raise [ValueError]: the
    line is not skipped, and the datasources read from the lines before it
    are lost with the exception.  Lines that are blank, start with [#] or
    have fewer than five fields are skipped, the last with a warning. *)
Theorem parse_datasource_config_raises_on_bad_port :
  outcome (Config.parse_datasource_config "db1,localhost,abc,root,secret")
    = Raise (ValueError "abc") /\
  Config.parse_datasource_config
    ("db0,localhost,3306,root,pw" ++ String "010" "db1,localhost,abc,root,secret")%string
    = (Raise (ValueError "abc"), [(INFO, "解析数据源配置: db0 - localhost:3306")]) /\
  Config.parse_datasource_config
    ("# datasources" ++ String "010" "" ++ String "010" "only,three,fields"
     ++ String "010" "db0, localhost ,3306,root,pw")%string
    = (Ok [{| Config.datasource_name := "db0"; Config.ip := "localhost";
              Config.port := 3306; Config.username := "root";
              Config.password := "pw" |}],
       [(WARNING, "跳过无效的配置行: only,three,fields");
        (INFO, "解析数据源配置: db0 - localhost:3306")]).
Proof. repeat split. Qed.

(** ** The aggregator *)

Module AggregatorFacts.
Import Spec Aggregator.

Lemma string_leb_ltb (a b : string) : String.leb a b = negb (String.ltb b a).
Proof.
  unfold String.leb, String.ltb. rewrite (String.compare_antisym b a).
  destruct (String.compare a b); reflexivity.
Qed.

Lemma string_compare_refl (a : string) : String.compare a a = Eq.
Proof. apply String_as_OT.cmp_eq. reflexivity. Qed.

Lemma string_leb_iff (a b : string) :
  String.leb a b = true <-> a = b \/ String_as_OT.lt a b.
Proof.
  unfold String.leb. destruct (String.compare a b) eqn:E.
  - apply String.compare_eq_iff in E. split; auto.
  - apply String_as_OT.cmp_lt in E. split; auto.
  - split; [ discriminate | ].
    intros [-> | H].
    + rewrite string_compare_refl in E; discriminate.
    + apply String_as_OT.cmp_lt in H. unfold String_as_OT.cmp in H. congruence.
Qed.

Lemma string_leb_trans (a b c : string) :
  String.leb a b = true -> String.leb b c = true -> String.leb a c = true.
Proof.
  rewrite !string_leb_iff. intros [-> | Hab] [-> | Hbc]; auto.
  right. eapply String_as_OT.lt_trans; eassumption.
Qed.

Lemma key_leb_ltb (a b : nat * string) : key_leb a b = negb (key_ltb b a).
Proof.
  destruct a as [n s], b as [m t]; unfold key_leb, key_ltb; simpl.
  rewrite string_leb_ltb.
  destruct (Nat.ltb_spec n m), (Nat.eqb_spec n m), (Nat.ltb_spec m n), (Nat.eqb_spec m n);
    simpl; try lia; reflexivity.
Qed.

Lemma key_ltb_leb (a b : nat * string) : key_ltb a b = true -> key_leb a b = true.
Proof.
  destruct a as [n s], b as [m t]; unfold key_leb, key_ltb; simpl.
  destruct (n <? m)%nat; simpl; [ reflexivity | ].
  destruct (n =? m)%nat; simpl; [ | discriminate ].
  unfold String.ltb, String.leb. destruct (String.compare s t); congruence.
Qed.

Lemma key_ltb_irrefl (a : nat * string) : key_ltb a a = false.
Proof.
  destruct a as [n s]; unfold key_ltb; simpl.
  rewrite Nat.ltb_irrefl, Nat.eqb_refl. simpl.
  unfold String.ltb. rewrite string_compare_refl. reflexivity.
Qed.

Lemma key_eqb_eq (a b : nat * string) : key_eqb a b = true <-> a = b.
Proof.
  destruct a as [n s], b as [m t]; unfold key_eqb; simpl.
  rewrite andb_true_iff, Nat.eqb_eq, String.eqb_eq.
  split; [ intros [-> ->]; reflexivity | intros H; inversion H; auto ].
Qed.

Lemma key_leb_trans (a b c : nat * string) :
  key_leb a b = true -> key_leb b c = true -> key_leb a c = true.
Proof.
  destruct a as [n s], b as [m t], c as [k u]; unfold key_leb; simpl.
  destruct (Nat.ltb_spec n m), (Nat.eqb_spec n m), (Nat.ltb_spec m k), (Nat.eqb_spec m k),
           (Nat.ltb_spec n k), (Nat.eqb_spec n k); simpl; try lia; try discriminate; auto.
  apply string_leb_trans.
Qed.

#[export] Instance key_le_transitive : Transitive key_le.
Proof. intros x y z. unfold key_le. apply key_leb_trans. Qed.

Lemma insert_perm (x : finding) (l : list finding) : Permutation (x :: l) (insert x l).
Proof.
  induction l as [ | y l IH]; simpl; [ reflexivity | ].
  destruct (key_ltb (sort_key y) (sort_key x)); [ | reflexivity ].
  rewrite perm_swap. constructor. exact IH.
Qed.

Lemma sort_perm (l : list finding) : Permutation l (sort l).
Proof.
  induction l as [ | x l IH]; simpl; [ constructor | ].
  rewrite <- insert_perm. constructor. exact IH.
Qed.

Lemma insert_sorted (x : finding) (l : list finding) :
  Sorted key_le l -> Sorted key_le (insert x l).
Proof.
  induction l as [ | y l IH]; intros Hs; simpl.
  - repeat constructor.
  - destruct (key_ltb (sort_key y) (sort_key x)) eqn:E.
    + inversion Hs as [ | ? ? Hs' Hhd]; subst.
      constructor; [ apply IH; assumption | ].
      destruct l as [ | z l]; simpl.
      * constructor. apply key_ltb_leb; assumption.
      * destruct (key_ltb (sort_key z) (sort_key x)).
        -- inversion Hhd; subst. constructor; assumption.
        -- constructor. apply key_ltb_leb; assumption.
    + constructor; [ assumption | ].
      constructor. unfold key_le. rewrite key_leb_ltb, E. reflexivity.
Qed.

Lemma sort_sorted (l : list finding) : StronglySorted key_le (sort l).
Proof.
  apply Sorted_StronglySorted; [ exact key_le_transitive | ].
  induction l as [ | x l IH]; simpl; [ constructor | apply insert_sorted; exact IH ].
Qed.

(** Stability: the findings of one key keep the order they had. *)
Lemma with_key_insert (k : nat * string) (x : finding) (l : list finding) :
  with_key k (insert x l) = with_key k (x :: l).
Proof.
  induction l as [ | y l IH]; simpl; [ reflexivity | ].
  destruct (key_ltb (sort_key y) (sort_key x)) eqn:E; [ | reflexivity ].
  unfold with_key in *. simpl in *. rewrite IH.
  destruct (key_eqb (sort_key x) k) eqn:Ex; [ | reflexivity ].
  destruct (key_eqb (sort_key y) k) eqn:Ey; [ | reflexivity ].
  apply key_eqb_eq in Ex, Ey. rewrite Ex, Ey, key_ltb_irrefl in E. discriminate.
Qed.

Lemma with_key_sort (k : nat * string) (l : list finding) :
  with_key k (sort l) = with_key k l.
Proof.
  induction l as [ | x l IH]; simpl; [ reflexivity | ].
  rewrite with_key_insert. unfold with_key in *. simpl. rewrite IH. reflexivity.
Qed.

Lemma risk_priority_unlisted (level : string) :
  level <> "高" -> level <> "中" -> level <> "低" -> risk_priority level = 99.
Proof.
  intros H1 H2 H3. unfold risk_priority, get_default. simpl.
  apply String.eqb_neq in H1, H2, H3. rewrite H1, H2, H3. reflexivity.
Qed.

End AggregatorFacts.

Module SummaryFacts.
Import Spec Aggregator.

Section WithJson.
Variable json_loads : pyvalue -> option sensitive_info.

Lemma summary_outcome users databases_info out :
  outcome (_generate_audit_summary json_loads users databases_info) = Ok out ->
  exists emitted,
    outcome (collect_audit_results json_loads users databases_info) = Ok emitted /\
    out = sort emitted.
Proof.
  unfold _generate_audit_summary. rewrite EffFacts.outcome_bind.
  destruct (outcome (collect_audit_results json_loads users databases_info))
    as [emitted | e]; [ | discriminate ].
  intros H; inversion H. exists emitted; auto.
Qed.

Lemma collect_outcome users databases_info emitted :
  outcome (collect_audit_results json_loads users databases_info) = Ok emitted ->
  exists found, emitted = found ++ flat_map user_findings users.
Proof.
  unfold collect_audit_results. rewrite EffFacts.outcome_bind.
  destruct (outcome (foldM (database_findings json_loads) databases_info []))
    as [found | e]; [ | discriminate ].
  intros H; inversion H. exists found; reflexivity.
Qed.

(** When every entry that [json.loads] yields is a dictionary, nothing in
    the aggregator raises. *)
Lemma table_findings_returns database table :
  (forall v info rule_name fields column entry,
     json_loads v = Some info -> In (rule_name, fields) info ->
     In (column, entry) fields -> exists d, entry = FDict d) ->
  exists found, outcome (table_findings json_loads database table) = Ok found.
Proof.
  intros Hdict. unfold table_findings.
  destruct (eq_str _ yes); [ | eexists; reflexivity ].
  destruct (json_loads _) as [info | ] eqn:Hj; [ | eexists; reflexivity ].
  destruct info as [ | x info]; [ eexists; reflexivity | ].
  rewrite EffFacts.outcome_bind.
  destruct (EffFacts.foldM_invariant (A := list string * list string) collect_type
              (fun _ => True) (x :: info)) with (acc := (@nil string, @nil string))
    as (collected & -> & _); [ | exact I | ].
  - intros acc [sensitive_type fields] Hin _. unfold collect_type.
    apply (EffFacts.foldM_invariant _ (fun _ => True)); [ | exact I ].
    intros [sensitive_fields sample_values] [name details] Hf _.
    destruct (Hdict _ _ _ _ _ _ Hj Hin Hf) as (d & ->).
    unfold collect_field. destruct (truthy _); eexists; split; auto; reflexivity.
  - destruct collected. eexists; reflexivity.
Qed.

Lemma summary_returns users databases_info :
  (forall v info rule_name fields column entry,
     json_loads v = Some info -> In (rule_name, fields) info ->
     In (column, entry) fields -> exists d, entry = FDict d) ->
  exists out, outcome (_generate_audit_summary json_loads users databases_info) = Ok out.
Proof.
  intros Hdict. unfold _generate_audit_summary, collect_audit_results.
  rewrite !EffFacts.outcome_bind.
  destruct (EffFacts.foldM_invariant (database_findings json_loads) (fun _ => True)
              databases_info) with (acc := @nil finding) as (found & -> & _);
    [ | exact I | eexists; reflexivity ].
  intros acc [database table_info] _ _. unfold database_findings.
  apply (EffFacts.foldM_invariant _ (fun _ => True)); [ | exact I ].
  intros acc' table _ _. rewrite EffFacts.outcome_bind.
  destruct (table_findings_returns database table Hdict) as (found & ->).
  eexists; split; auto; reflexivity.
Qed.

End WithJson.

Lemma super_in_high_risks (user : dict pyvalue) :
  list_in "超级权限" (user_high_risks user) = holds user "超级权限".
Proof.
  unfold user_high_risks, high_risk_permissions. cbn [filter].
  destruct (holds user "超级权限"); [ reflexivity | ].
  repeat match goal with
         | |- context [holds user ?p] => destruct (holds user p)
         end; reflexivity.
Qed.

End SummaryFacts.

Section AggregatorProperties.
Import Spec Aggregator AggregatorFacts SummaryFacts.
Variable json_loads : pyvalue -> option sensitive_info.

(** C6.  Whatever the users and the tables are, the list that
    [_generate_audit_summary] returns is the list of emitted findings
    rearranged so that it is sorted by rank of the risk level (高 is 1, 中
    is 2, 低 is 3, any other level 99) and then by risk type; findings with
    the same rank and type stay in the order of their emission.  The
    function returns a list whenever the entries decoded by [json.loads]
    are dictionaries. *)
Theorem audit_summary_is_stably_sorted
    (users : list (dict pyvalue)) (databases_info : dict (list (dict pyvalue))) :
  ((forall v info rule_name fields column entry,
      json_loads v = Some info -> In (rule_name, fields) info ->
      In (column, entry) fields -> exists d, entry = FDict d) ->
   exists out, outcome (_generate_audit_summary json_loads users databases_info) = Ok out) /\
  (forall out,
     outcome (_generate_audit_summary json_loads users databases_info) = Ok out ->
     exists emitted,
       outcome (collect_audit_results json_loads users databases_info) = Ok emitted /\
       StronglySorted key_le out /\
       Permutation emitted out /\
       forall k, with_key k out = with_key k emitted) /\
  risk_priority "高" = 1 /\ risk_priority "中" = 2 /\ risk_priority "低" = 3 /\
  (forall level, level <> "高" -> level <> "中" -> level <> "低" ->
                 risk_priority level = 99).
Proof.
  split; [ apply summary_returns | ].
  split; [ | repeat split; apply risk_priority_unlisted ].
  intros out Hout.
  destruct (summary_outcome json_loads users databases_info out Hout) as (emitted & He & ->).
  exists emitted. split; [ exact He | ].
  split; [ apply sort_sorted | ].
  split; [ apply sort_perm | ].
  intros k; apply with_key_sort.
Qed.

Lemma findings_of_filter {A} (f : string -> bool) (l : list string) (some none : A) :
  match filter f l with [] => none | _ => some end = if existsb f l then some else none.
Proof.
  induction l as [ | x l IH]; simpl; [ reflexivity | ].
  destruct (f x); simpl; [ reflexivity | exact IH ].
Qed.

(** C7.  For every user record passed to [_generate_audit_summary]: the
    user contributes one finding for high-risk privileges exactly when it
    holds one of the eight listed privileges, of level 高 when 超级权限 is
    held and 中 otherwise; and, whether or not that finding was emitted, one
    further finding of level 中 exactly when its host is [%] and it holds one
    of the four data privileges.  The two findings are distinct, both are in
    the returned list, and the returned list is a rearrangement of the
    findings of the tables followed by those of the users. *)
Theorem privilege_findings_per_user
    (users : list (dict pyvalue)) (databases_info : dict (list (dict pyvalue)))
    (out : list finding) (user : dict pyvalue) :
  outcome (_generate_audit_summary json_loads users databases_info) = Ok out ->
  In user users ->
  user_findings user =
    (if existsb (holds user) high_risk_permissions then [high_risk_finding user] else [])
    ++ (if eq_str (get_default user "主机" (PyStr "")) "%"
           && existsb (holds user) data_permissions
        then [wildcard_host_finding user] else []) /\
  (exists found, Permutation (found ++ flat_map user_findings users) out) /\
  ((exists perm, In perm high_risk_permissions /\ holds user perm = true) ->
   In (high_risk_finding user) out /\
   (high_risk_finding user).(risk_level) =
     (if holds user "超级权限" then "高" else "中")) /\
  (eq_str (get_default user "主机" (PyStr "")) "%" = true ->
   (exists perm, In perm data_permissions /\ holds user perm = true) ->
   In (wildcard_host_finding user) out /\
   (wildcard_host_finding user).(risk_level) = "中" /\
   wildcard_host_finding user <> high_risk_finding user).
Proof.
  intros Hout Huser.
  destruct (summary_outcome json_loads users databases_info out Hout) as (emitted & He & ->).
  destruct (collect_outcome json_loads users databases_info emitted He) as (found & ->).
  assert (Hshape : user_findings user =
            (if existsb (holds user) high_risk_permissions
             then [high_risk_finding user] else [])
            ++ (if eq_str (get_default user "主机" (PyStr "")) "%"
                   && existsb (holds user) data_permissions
                then [wildcard_host_finding user] else [])).
  { unfold user_findings, user_high_risks, wildcard_host.
    rewrite findings_of_filter. reflexivity. }
  assert (Hin : forall f, In f (user_findings user) ->
                          In f (sort (found ++ flat_map user_findings users))).
  { intros f Hf. eapply Permutation_in; [ apply sort_perm | ].
    apply in_or_app; right. apply in_flat_map. exists user; auto. }
  split; [ exact Hshape | ].
  split; [ exists found; apply sort_perm | ].
  split.
  - intros (perm & Hp & Hh). split.
    + apply Hin. rewrite Hshape.
      assert (E : existsb (holds user) high_risk_permissions = true)
        by (apply existsb_exists; exists perm; auto).
      rewrite E. left; reflexivity.
    + unfold high_risk_finding; cbn [risk_level]. rewrite super_in_high_risks. reflexivity.
  - intros Hhost (perm & Hp & Hh). split; [ | split ].
    + apply Hin. rewrite Hshape.
      assert (E : existsb (holds user) data_permissions = true)
        by (apply existsb_exists; exists perm; auto).
      rewrite Hhost, E. apply in_or_app; right; left; reflexivity.
    + reflexivity.
    + intros Heq. apply (f_equal sensitive_type) in Heq. discriminate Heq.
Qed.

End AggregatorProperties.

Lemma audit_summary_is_stably_sorted_witness :
  exists out emitted,
    outcome (Aggregator._generate_audit_summary Examples.phone_json_loads
               Examples.users Examples.databases_info) = Ok out /\
    outcome (Aggregator.collect_audit_results Examples.phone_json_loads
               Examples.users Examples.databases_info) = Ok emitted /\
    map Aggregator.sort_key emitted =
      [(1, "敏感信息"); (2, "权限风险"); (1, "权限风险"); (2, "权限风险"); (2, "权限风险")] /\
    map Aggregator.sort_key out =
      [(1, "敏感信息"); (1, "权限风险"); (2, "权限风险"); (2, "权限风险"); (2, "权限风险")] /\
    StronglySorted Spec.key_le out /\
    Permutation emitted out /\
    forall k, Spec.with_key k out = Spec.with_key k emitted.
Proof.
  destruct (audit_summary_is_stably_sorted Examples.phone_json_loads
              Examples.users Examples.databases_info) as (_ & H & _).
  eexists. 
  destruct (H _ eq_refl) as (emitted & He & Hs & Hp & Hk).
  exists emitted. split; [ reflexivity | ].
  split; [ exact He | ].
  assert (E : Ok emitted = Ok (A := list Aggregator.finding) _) by (rewrite <- He; reflexivity).
  inversion E; subst emitted.
  split; [ reflexivity | ].
  split; [ reflexivity | ].
  auto.
Defined.

Lemma privilege_findings_per_user_witness :
  exists out,
    outcome (Aggregator._generate_audit_summary Examples.phone_json_loads
               Examples.users Examples.databases_info) = Ok out /\
    In (Aggregator.high_risk_finding Examples.root) out /\
    (Aggregator.high_risk_finding Examples.root).(Aggregator.risk_level) = "高" /\
    In (Aggregator.wildcard_host_finding Examples.root) out /\
    (Aggregator.wildcard_host_finding Examples.root).(Aggregator.risk_level) = "中".
Proof.
  eexists. split; [ reflexivity | ].
  destruct (privilege_findings_per_user Examples.phone_json_loads
              Examples.users Examples.databases_info _ Examples.root eq_refl)
    as (_ & _ & Hhigh & Hwild).
  - right; left; reflexivity.
  - destruct Hhigh as (H1 & H2);
      [ exists "超级权限"; split; [ left; reflexivity | reflexivity ] | ].
    destruct Hwild as (H3 & H4 & _);
      [ reflexivity | exists "查询权限"; split; [ left; reflexivity | reflexivity ] | ].
    auto.
Defined.

(** * Further properties of the engine *)

(** ** The classifier, cell by cell *)

Module CellFacts.
Import Spec Cell ClassifierFacts.

Section WithMatcher.
Variable re_match : Re.matcher.

(** One step of the loop over the rules, as a function of the cell. *)
Lemma check_rule_cell settings column value info rule_name rc :
  outcome (check_rule re_match settings column value info (rule_name, rc)) =
  Ok (if list_in rule_name (or_default settings.(enabled_rules) [])
         && accepted settings value
      then record_match info rule_name column value
             (field_flag settings rc column) (value_flag re_match rc value)
      else info).
Proof.
  unfold check_rule, accepted, field_flag, value_flag.
  destruct (list_in rule_name _); simpl; [ | reflexivity ].
  destruct value; try reflexivity;
    (destruct (_ && _); simpl; [ reflexivity | ];
     destruct (_ >? _)%Z; simpl; [ reflexivity | ];
     rewrite EffFacts.outcome_bind, value_matches_outcome; reflexivity).
Qed.

Lemma well_recorded_more_cells settings rules cells cells' info :
  (forall cell, In cell cells -> In cell cells') ->
  well_recorded re_match settings rules cells info ->
  well_recorded re_match settings rules cells' info.
Proof.
  intros Hincl Hw rn fields column entry H1 H2.
  destruct (Hw rn fields column entry H1 H2) as (value & rc & Hc & Hrest).
  exists value, rc. split; [ apply Hincl; exact Hc | exact Hrest ].
Qed.

Lemma record_match_well_recorded settings rules cells info rule_name rc column value :
  In (column, value) cells ->
  In (rule_name, rc) rules ->
  list_in rule_name (or_default settings.(enabled_rules) []) = true ->
  accepted settings value = true ->
  well_recorded re_match settings rules cells info /\ no_empty_category info ->
  let info' := record_match info rule_name column value
                 (field_flag settings rc column) (value_flag re_match rc value) in
  well_recorded re_match settings rules cells info' /\ no_empty_category info'.
Proof.
  intros Hc Hr Hen Hacc [Hw Hne] info'. subst info'. unfold record_match.
  destruct (field_flag settings rc column || value_flag re_match rc value) eqn:Hflags;
    [ | split; assumption ].
  split.
  - intros rn fields c entry Hin Hentry.
    apply DictFacts.in_set in Hin. destruct Hin as [[-> ->] | Hin].
    + apply DictFacts.in_set in Hentry. destruct Hentry as [[-> ->] | Hentry].
      * exists value, rc. auto 10.
      * unfold get_default in Hentry.
        destruct (get info rule_name) as [old | ] eqn:Hget; [ | destruct Hentry ].
        apply DictFacts.get_in in Hget. eapply Hw; eassumption.
    + eapply Hw; eassumption.
  - intros rn fields Hin.
    apply DictFacts.in_set in Hin. destruct Hin as [[-> ->] | Hin].
    + destruct (get_default info rule_name []) as [ | [k v] d]; simpl; [ discriminate | ].
      destruct (String.eqb column k); discriminate.
    + eapply Hne; eassumption.
Qed.

Lemma identify_well_recorded env cfg columns record info :
  outcome (load_sensitive_rules env) = Ok cfg ->
  outcome (identify_sensitive_info re_match env columns record) = Ok info ->
  well_recorded re_match (or_default cfg.(settings) no_settings)
    (or_default cfg.(sensitive_rules) []) (combine columns record) info /\
  no_empty_category info.
Proof.
  intros Hload. unfold identify_sensitive_info.
  rewrite EffFacts.outcome_bind, Hload.
  set (settings := or_default cfg.(Rules.settings) no_settings).
  set (rules := or_default cfg.(sensitive_rules) []).
  set (cells := combine columns record).
  set (P := fun i : sensitive_info =>
              well_recorded re_match settings rules cells i /\ no_empty_category i).
  assert (P0 : P []) by (split; [ intros ? ? ? ? [] | intros ? ? [] ]).
  destruct (_ || _).
  - intros H; inversion H; subst info. exact P0.
  - intros H.
    destruct (EffFacts.foldM_invariant (check_column re_match settings rules) P cells)
      with (acc := @nil (string * dict field_info)) as (info' & H' & HP);
      [ | exact P0 | ].
    + intros acc [column value] Hcell Hacc. unfold check_column.
      apply (EffFacts.foldM_invariant _ P); [ | exact Hacc ].
      intros acc' [rule_name rc] Hrule Hacc'.
      rewrite check_rule_cell. eexists; split; [ reflexivity | ].
      destruct (list_in rule_name _) eqn:Hen; simpl; [ | exact Hacc' ].
      destruct (accepted settings value) eqn:Ha; [ | exact Hacc' ].
      apply record_match_well_recorded; assumption.
    + pose proof (eq_trans (eq_sym H') H) as E. inversion E; subst info'. exact HP.
Qed.

End WithMatcher.

End CellFacts.

Lemma identify_returns (re_match : Re.matcher) env columns record :
  exists info, outcome (identify_sensitive_info re_match env columns record) = Ok info.
Proof.
  unfold identify_sensitive_info. rewrite EffFacts.outcome_bind.
  destruct (load_sensitive_rules_ok env) as (cfg & ->).
  destruct (_ || _); [ eexists; reflexivity | ].
  destruct (EffFacts.foldM_invariant
              (check_column re_match (or_default cfg.(settings) no_settings)
                 (or_default cfg.(sensitive_rules) []))
              (fun _ => True) (combine columns record))
    with (acc := @nil (string * dict field_info)) as (info & H & _);
    [ | exact I | exists info; exact H ].
  intros acc [column value] _ _. unfold check_column.
  apply (EffFacts.foldM_invariant _ (fun _ => True)); [ | exact I ].
  intros acc' [rule_name rc] _ _. rewrite CellFacts.check_rule_cell.
  eexists; split; [ reflexivity | exact I ].
Qed.

Lemma identify_entry_shape (re_match : Re.matcher)
    env columns record info rule_name fields column entry :
  outcome (identify_sensitive_info re_match env columns record) = Ok info ->
  In (rule_name, fields) info ->
  In (column, entry) fields ->
  exists i value fm vm,
    nth_error columns i = Some column /\
    nth_error record i = Some value /\
    entry = Spec.match_entry (display_value value) fm vm /\
    (fm || vm) = true /\
    (value = PyNone -> vm = false).
Proof.
  intros Hid Hin Hentry.
  destruct (load_sensitive_rules_ok env) as (cfg & Hload).
  destruct (CellFacts.identify_well_recorded re_match env cfg columns record info Hload Hid)
    as [Hw _].
  destruct (Hw rule_name fields column entry Hin Hentry)
    as (value & rc & Hc & _ & _ & _ & Hflags & ->).
  apply ClassifierFacts.in_combine_nth_error in Hc. destruct Hc as (i & Hi & Hv).
  eexists i, value, _, _.
  split; [ exact Hi | split; [ exact Hv | split; [ reflexivity | split; [ exact Hflags | ] ] ] ].
  intros ->; reflexivity.
Qed.

Section ResultInvariants.
Import Spec Cell CellFacts.
Variable re_match : Re.matcher.

(** X1.  Every category of a result of [identify_sensitive_info] is a rule
    of the rule file in force that the settings enable, and it has at least
    one column. *)
Theorem identify_categories_are_enabled_rules
    env cfg columns record info rule_name fields :
  outcome (load_sensitive_rules env) = Ok cfg ->
  outcome (identify_sensitive_info re_match env columns record) = Ok info ->
  In (rule_name, fields) info ->
  (exists rc, In (rule_name, rc) (or_default cfg.(sensitive_rules) [])) /\
  list_in rule_name
    (or_default (or_default cfg.(settings) no_settings).(enabled_rules) []) = true /\
  fields <> [].
Proof.
  intros Hload Hid Hin.
  destruct (identify_well_recorded re_match env cfg columns record info Hload Hid)
    as [Hw Hne].
  pose proof (Hne rule_name fields Hin) as Hfields.
  destruct fields as [ | [column entry] fields]; [ congruence | ].
  destruct (Hw rule_name _ column entry Hin (or_introl eq_refl))
    as (value & rc & _ & Hrc & Hen & _).
  split; [ exists rc; exact Hrc | split; [ exact Hen | discriminate ] ].
Qed.


(** X3.  A record of nulls is never confirmed: whatever the columns and the
    rule files in force at the two calls, [confirm_sensitive_data] answers
    否 on the result of [identify_sensitive_info] for a record all of whose
    values are null. *)
Theorem null_record_is_not_confirmed env env' columns record :
  (forall v, In v record -> v = PyNone) ->
  exists info,
    outcome (identify_sensitive_info re_match env columns record) = Ok info /\
    outcome (confirm_sensitive_data re_match env' info) = Ok no.
Proof.
  intros Hnull.
  destruct (identify_returns re_match env columns record) as (info & Hid).
  exists info; split; [ exact Hid | ].
  destruct (load_sensitive_rules_ok env') as (cfg' & Hload').
  rewrite (ConfirmFacts.confirm_outcome re_match env' cfg' info Hload').
  destruct (existsb _ info) eqn:E; [ | reflexivity ].
  apply ConfirmFacts.confirms_iff_revalidates in E.
  destruct E as (rn & fields & rc & column & d & p & Hin & _ & Hf & Hnn & _).
  destruct (identify_entry_shape re_match env columns record info rn fields column
              (FDict d) Hid Hin Hf) as (i & value & fm & vm & _ & Hv & Heq & _).
  exfalso. apply Hnn. inversion Heq; subst d.
  rewrite (Hnull value (nth_error_In _ _ Hv)). reflexivity.
Qed.

End ResultInvariants.

Lemma identify_categories_are_enabled_rules_witness :
  (exists rc, In ("手机号", rc) (or_default _get_default_rules.(sensitive_rules) [])) /\
  list_in "手机号"
    (or_default (or_default _get_default_rules.(settings) no_settings).(enabled_rules) [])
    = true /\
  [("phone", Spec.match_entry (PyStr "13812345678") true true)] <> [].
Proof.
  apply (identify_categories_are_enabled_rules ReFragment.re_match FileAbsent
           _get_default_rules ["id"; "name"; "phone"]
           [PyInt 1; PyStr "John"; PyStr "13812345678"]
           [("手机号", [("phone", Spec.match_entry (PyStr "13812345678") true true)])]).
  - reflexivity.
  - reflexivity.
  - left; reflexivity.
Defined.


Lemma null_record_is_not_confirmed_witness :
  exists info,
    outcome (identify_sensitive_info ReFragment.re_match FileAbsent
               ["id"; "phone"] [PyNone; PyNone]) = Ok info /\
    outcome (confirm_sensitive_data ReFragment.re_match FileAbsent info) = Ok no.
Proof.
  apply (null_record_is_not_confirmed ReFragment.re_match FileAbsent FileAbsent).
  intros v [<- | [<- | []]]; reflexivity.
Defined.

Section CellByCell.
Import Spec Cell CellFacts ClassifierFacts.
Variable re_match : Re.matcher.



End CellByCell.


(** ** Stripping twice *)

Module StripFacts.

Lemma rstrip_idempotent (s : string) : rstrip (rstrip s) = rstrip s.
Proof.
  induction s as [ | c s IH]; [ reflexivity | ].
  cbn [rstrip]. destruct (rstrip s) as [ | c' r] eqn:E.
  - destruct (is_space c) eqn:Ec; [ reflexivity | ].
    cbn [rstrip]. rewrite Ec. reflexivity.
  - remember (String c' r) as t eqn:Ht.
    cbn [rstrip]. rewrite IH. subst t. reflexivity.
Qed.

Lemma rstrip_head (c : ascii) (s : string) :
  is_space c = false -> exists r, rstrip (String c s) = String c r.
Proof.
  intros Hc. cbn [rstrip]. destruct (rstrip s); [ rewrite Hc | ]; eexists; reflexivity.
Qed.

Lemma lstrip_rstrip_lstrip (s : string) : lstrip (rstrip (lstrip s)) = rstrip (lstrip s).
Proof.
  induction s as [ | c s IH]; [ reflexivity | ].
  cbn [lstrip]. destruct (is_space c) eqn:Ec; [ exact IH | ].
  destruct (rstrip_head c s Ec) as (r & Hr). rewrite Hr. cbn [lstrip]. rewrite Ec. reflexivity.
Qed.

Lemma strip_idempotent (s : string) : strip (strip s) = strip s.
Proof.
  unfold strip. rewrite lstrip_rstrip_lstrip. apply rstrip_idempotent.
Qed.

End StripFacts.

(** ** Stored flags and re-validation *)

Module AgreementFacts.
Import Spec Cell.

Lemma get_of_in_nodup {V} (d : dict V) k v :
  NoDup (keys d) -> In (k, v) d -> get d k = Some v.
Proof.
  induction d as [ | [k0 v0] d IH]; simpl; intros Hnd Hin; [ destruct Hin | ].
  inversion Hnd as [ | ? ? Hnotin Hnd']; subst.
  destruct Hin as [Heq | Hin].
  - inversion Heq; subst. rewrite String.eqb_refl. reflexivity.
  - destruct (String.eqb k k0) eqn:E.
    + apply String.eqb_eq in E; subst k0. exfalso. apply Hnotin.
      apply (in_map fst) in Hin. exact Hin.
    + apply IH; assumption.
Qed.

Lemma has_value_match_flag_iff (info : sensitive_info) :
  has_value_match_flag info = true <->
  exists rule_name fields column d,
    In (rule_name, fields) info /\ In (column, FDict d) fields /\
    get d "value_match" = Some (PyBool true).
Proof.
  unfold has_value_match_flag. rewrite existsb_exists. split.
  - intros ([rn fields] & Hin & H). simpl in H.
    apply existsb_exists in H. destruct H as ([column entry] & Hf & H). simpl in H.
    destruct entry as [d | v]; [ | discriminate ].
    exists rn, fields, column, d. repeat split; try assumption.
    destruct (get d "value_match") as [[ | [ | ] | | | | ] | ]; try discriminate; reflexivity.
  - intros (rn & fields & column & d & Hin & Hf & Hg).
    exists (rn, fields); split; [ assumption | ]. simpl.
    apply existsb_exists. exists (column, FDict d); split; [ assumption | ].
    simpl. rewrite Hg. reflexivity.
Qed.

Lemma display_value_short (value : pyvalue) :
  value <> PyNone ->
  String.length (strip (py_str value)) <= 50 ->
  display_value value = PyStr (strip (py_str value)).
Proof.
  intros Hnn Hlen. apply Nat.ltb_ge in Hlen.
  destruct value; try congruence; unfold display_value; rewrite Hlen; reflexivity.
Qed.

Lemma value_flag_not_none re_match rc (value : pyvalue) :
  value <> PyNone ->
  value_flag re_match rc value =
  any_pattern_matches re_match (or_default rc.(regex_patterns) []) (strip (py_str value)).
Proof. intros Hnn. destruct value; try congruence; reflexivity. Qed.

End AgreementFacts.

Section Agreement.
Import Spec Cell CellFacts AgreementFacts.
Variable re_match : Re.matcher.

(** X5.  As long as nothing is truncated, the verdict and the stored flags
    agree.  Under one rule file whose rule names are distinct, for a record
    whose stripped values have at most 50 characters,
    [confirm_sensitive_data] answers 是 on the result of
    [identify_sensitive_info] exactly when some Column Match of that result
    has [value_match] set. *)
Theorem confirm_agrees_with_value_match_flags
    (env : rules_file) (cfg : rules_config) (columns : list string)
    (record : list pyvalue) (info : sensitive_info) :
  outcome (load_sensitive_rules env) = Ok cfg ->
  NoDup (keys (or_default cfg.(sensitive_rules) [])) ->
  (forall v, In v record -> String.length (strip (py_str v)) <= 50) ->
  outcome (identify_sensitive_info re_match env columns record) = Ok info ->
  (outcome (confirm_sensitive_data re_match env info) = Ok yes <->
   has_value_match_flag info = true).
Proof.
  intros Hload Hnd Hshort Hid.
  destruct (identify_well_recorded re_match env cfg columns record info Hload Hid)
    as [Hw _].
  rewrite (ConfirmFacts.confirm_outcome re_match env cfg info Hload).
  rewrite has_value_match_flag_iff.
  assert (Hyes : (Ok (if existsb (rule_confirms re_match (or_default cfg.(sensitive_rules) []))
                           info then yes else no) = Ok yes) <->
                 existsb (rule_confirms re_match (or_default cfg.(sensitive_rules) [])) info
                   = true).
  { destruct (existsb _ info); split; try reflexivity; intros H;
      [ inversion H | discriminate H ]. }
  rewrite Hyes, ConfirmFacts.confirms_iff_revalidates. split.
  - intros (rn & fields & rc & column & d & p & Hin & Hget & Hf & Hnn & Hp & Hm).
    destruct (Hw rn fields column (FDict d) Hin Hf)
      as (value & rc' & Hcell & Hrc' & _ & _ & _ & Heq).
    assert (rc' = rc).
    { apply (get_of_in_nodup _ _ _ Hnd) in Hrc'. congruence. }
    subst rc'. inversion Heq; subst d. cbn [get_default get String.eqb] in Hnn, Hm.
    simpl in Hnn, Hm.
    assert (Hv : value <> PyNone) by (intros ->; apply Hnn; reflexivity).
    apply in_combine_r in Hcell.
    rewrite (display_value_short value Hv (Hshort value Hcell)) in Hm.
    simpl in Hm. rewrite StripFacts.strip_idempotent in Hm.
    eexists rn, fields, column, _.
    split; [ exact Hin | split; [ exact Hf | ] ].
    simpl. rewrite (value_flag_not_none re_match rc value Hv).
    assert (Hany : any_pattern_matches re_match (or_default rc.(regex_patterns) [])
                     (strip (py_str value)) = true)
      by (apply ConfirmFacts.any_pattern_matches_iff; exists p; auto).
    rewrite Hany. reflexivity.
  - intros (rn & fields & column & d & Hin & Hf & Hflag).
    destruct (Hw rn fields column (FDict d) Hin Hf)
      as (value & rc & Hcell & Hrc & _ & _ & _ & Heq).
    inversion Heq; subst d. simpl in Hflag.
    assert (Hvf : value_flag re_match rc value = true) by congruence.
    assert (Hv : value <> PyNone) by (intros ->; discriminate Hvf).
    rewrite (value_flag_not_none re_match rc value Hv) in Hvf.
    apply ConfirmFacts.any_pattern_matches_iff in Hvf. destruct Hvf as (p & Hp & Hm).
    apply in_combine_r in Hcell.
    pose proof (display_value_short value Hv (Hshort value Hcell)) as Hd.
    eexists rn, fields, rc, column, _, p.
    split; [ exact Hin | ].
    split; [ apply get_of_in_nodup; assumption | ].
    split; [ exact Hf | ].
    simpl. rewrite Hd. simpl. rewrite StripFacts.strip_idempotent.
    split; [ discriminate | split; assumption ].
Qed.

End Agreement.

Lemma confirm_agrees_with_value_match_flags_witness :
  let info := [("手机号", [("phone", Spec.match_entry (PyStr "13812345678") true true)])] in
  outcome (confirm_sensitive_data ReFragment.re_match FileAbsent info) = Ok yes <->
  Spec.has_value_match_flag info = true.
Proof.
  apply (confirm_agrees_with_value_match_flags ReFragment.re_match FileAbsent
           _get_default_rules ["id"; "phone"] [PyInt 7; PyStr " 13812345678 "]).
  - reflexivity.
  - repeat constructor. intros [].
  - intros v [<- | [<- | []]]; simpl; lia.
  - reflexivity.
Defined.

Section VerdictAndOrder.
Import Spec.
Variable re_match : Re.matcher.

(** X6.  The verdict of [confirm_sensitive_data] does not depend on the
    order in which the loops meet the entries, and more entries never turn
    是 into 否: when every entry of [info] is also in [info'], under the same
    category and column, a verdict 是 on [info] is a verdict 是 on [info'];
    two mappings with the same entries get the same verdict. *)
Theorem confirm_is_monotone_in_entries
    (env : rules_file) (info info' : sensitive_info) :
  (forall rule_name fields column entry,
     In (rule_name, fields) info -> In (column, entry) fields ->
     exists fields', In (rule_name, fields') info' /\ In (column, entry) fields') ->
  (outcome (confirm_sensitive_data re_match env info) = Ok yes ->
   outcome (confirm_sensitive_data re_match env info') = Ok yes) /\
  ((forall rule_name fields column entry,
      In (rule_name, fields) info' -> In (column, entry) fields ->
      exists fields', In (rule_name, fields') info /\ In (column, entry) fields') ->
   outcome (confirm_sensitive_data re_match env info) =
   outcome (confirm_sensitive_data re_match env info')).
Proof.
  intros Hincl.
  destruct (load_sensitive_rules_ok env) as (cfg & Hload).
  rewrite !(ConfirmFacts.confirm_outcome re_match env cfg _ Hload).
  assert (Hmono : forall a b : sensitive_info,
             (forall rule_name fields column entry,
                In (rule_name, fields) a -> In (column, entry) fields ->
                exists fields', In (rule_name, fields') b /\ In (column, entry) fields') ->
             existsb (rule_confirms re_match (or_default cfg.(sensitive_rules) [])) a = true ->
             existsb (rule_confirms re_match (or_default cfg.(sensitive_rules) [])) b = true).
  { intros a b Hab Ha. apply ConfirmFacts.confirms_iff_revalidates in Ha.
    apply ConfirmFacts.confirms_iff_revalidates.
    destruct Ha as (rn & fields & rc & column & d & p & Hin & Hget & Hf & Hrest).
    destruct (Hab rn fields column (FDict d) Hin Hf) as (fields' & Hin' & Hf').
    exists rn, fields', rc, column, d, p. auto. }
  split.
  - destruct (existsb _ info) eqn:E.
    + intros _. rewrite (Hmono info info' Hincl E). reflexivity.
    + intros H; inversion H.
  - intros Hincl'.
    destruct (existsb _ info) eqn:E.
    + rewrite (Hmono info info' Hincl E). reflexivity.
    + destruct (existsb _ info') eqn:E'; [ | reflexivity ].
      rewrite (Hmono info' info Hincl' E') in E. discriminate E.
Qed.

End VerdictAndOrder.

Lemma confirm_is_monotone_in_entries_witness :
  outcome (confirm_sensitive_data ReFragment.re_match FileAbsent
             [("身份证号", [("id_card", Spec.match_entry (PyStr "123") true false)]);
              ("手机号", [("fax", Spec.match_entry PyNone true false);
                          ("phone", Spec.match_entry (PyStr "13812345678") true true)])])
    = Ok yes.
Proof.
  apply (confirm_is_monotone_in_entries ReFragment.re_match FileAbsent
           [("手机号", [("phone", Spec.match_entry (PyStr "13812345678") true true)])]).
  - intros rn fields column entry [H | []] Hf. inversion H; subst rn fields.
    destruct Hf as [Hf | []]. inversion Hf; subst column entry.
    eexists; split; [ right; left; reflexivity | right; left; reflexivity ].
  - reflexivity.
Defined.

(** ** The shape of the audit sheet *)

Module ReportFacts.
Import Spec Aggregator AggregatorFacts Report.

Lemma with_key_in (k : nat * string) (l : list finding) (y : finding) :
  In y (with_key k l) -> sort_key y = k /\ In y l.
Proof.
  unfold with_key. intros H. apply filter_In in H. destruct H as [Hin Hk].
  apply key_eqb_eq in Hk. auto.
Qed.

Lemma insert_pass (x : finding) (front rest : list finding) :
  (forall y, In y front -> key_ltb (sort_key y) (sort_key x) = true) ->
  insert x (front ++ rest) = front ++ insert x rest.
Proof.
  induction front as [ | y front IH]; intros H; simpl; [ reflexivity | ].
  rewrite (H y (or_introl eq_refl)). rewrite IH; [ reflexivity | ].
  intros z Hz; apply H; right; exact Hz.
Qed.

Lemma insert_stop (x : finding) (rest : list finding) :
  (forall y, In y rest -> key_ltb (sort_key y) (sort_key x) = false) ->
  insert x rest = x :: rest.
Proof.
  destruct rest as [ | y rest]; intros H; simpl; [ reflexivity | ].
  rewrite (H y (or_introl eq_refl)). reflexivity.
Qed.

Lemma key_ltb_asym (a b : nat * string) : key_ltb a b = true -> key_ltb b a = false.
Proof.
  intros H. apply key_ltb_leb in H. rewrite key_leb_ltb in H.
  destruct (key_ltb b a); [ discriminate H | reflexivity ].
Qed.

Lemma key_eqb_refl (a : nat * string) : key_eqb a a = true.
Proof. apply key_eqb_eq. reflexivity. Qed.

Lemma key_ltb_neq (a b : nat * string) : key_ltb a b = true -> key_eqb a b = false.
Proof.
  intros H. destruct (key_eqb a b) eqn:E; [ | reflexivity ].
  apply key_eqb_eq in E; subst b. rewrite key_ltb_irrefl in H. discriminate H.
Qed.

Lemma key_eqb_sym (a b : nat * string) : key_eqb a b = key_eqb b a.
Proof.
  destruct (key_eqb a b) eqn:E.
  - apply key_eqb_eq in E; subst b. symmetry; apply key_eqb_refl.
  - destruct (key_eqb b a) eqn:E'; [ | reflexivity ].
    apply key_eqb_eq in E'; subst b. rewrite key_eqb_refl in E. discriminate E.
Qed.

(** A list with three keys only is sorted into three blocks. *)
Lemma sort_three_keys (k1 k2 k3 : nat * string) (l : list finding) :
  key_ltb k1 k2 = true -> key_ltb k2 k3 = true -> key_ltb k1 k3 = true ->
  (forall x, In x l -> sort_key x = k1 \/ sort_key x = k2 \/ sort_key x = k3) ->
  sort l = with_key k1 l ++ with_key k2 l ++ with_key k3 l.
Proof.
  intros H12 H23 H13.
  pose proof (key_ltb_asym _ _ H12) as H21.
  pose proof (key_ltb_asym _ _ H23) as H32.
  pose proof (key_ltb_asym _ _ H13) as H31.
  pose proof (key_ltb_neq _ _ H12) as N12.
  pose proof (key_ltb_neq _ _ H23) as N23.
  pose proof (key_ltb_neq _ _ H13) as N13.
  induction l as [ | x l IH]; intros Hkeys; [ reflexivity | ].
  cbn [sort fold_right]. fold (sort l).
  rewrite IH by (intros y Hy; apply Hkeys; right; exact Hy).
  unfold with_key at 4 5 6. cbn [filter]. fold (with_key k1 l) (with_key k2 l) (with_key k3 l).
  destruct (Hkeys x (or_introl eq_refl)) as [Hx | [Hx | Hx]]; rewrite Hx.
  - rewrite key_eqb_refl, N12, N13.
    apply insert_stop. intros y Hy. rewrite Hx.
    apply in_app_or in Hy. destruct Hy as [Hy | Hy];
      [ | apply in_app_or in Hy; destruct Hy as [Hy | Hy] ];
      apply with_key_in in Hy; destruct Hy as [-> _];
      [ apply key_ltb_irrefl | exact H21 | exact H31 ].
  - rewrite key_eqb_refl, (key_eqb_sym k2 k1), N12, N23.
    rewrite insert_pass
      by (intros y Hy; apply with_key_in in Hy; destruct Hy as [-> _]; rewrite Hx; exact H12).
    f_equal. apply insert_stop. intros y Hy. rewrite Hx.
    apply in_app_or in Hy. destruct Hy as [Hy | Hy];
      apply with_key_in in Hy; destruct Hy as [-> _];
      [ apply key_ltb_irrefl | exact H32 ].
  - rewrite key_eqb_refl, (key_eqb_sym k3 k1), (key_eqb_sym k3 k2), N13, N23.
    rewrite insert_pass
      by (intros y Hy; apply with_key_in in Hy; destruct Hy as [-> _]; rewrite Hx; exact H13).
    f_equal.
    rewrite insert_pass
      by (intros y Hy; apply with_key_in in Hy; destruct Hy as [-> _]; rewrite Hx; exact H23).
    f_equal. apply insert_stop. intros y Hy. rewrite Hx.
    apply with_key_in in Hy; destruct Hy as [-> _]. apply key_ltb_irrefl.
Qed.

Lemma user_findings_keys (user : dict pyvalue) (f : finding) :
  In f (user_findings user) ->
  f.(risk_type) = "权限风险" /\
  (sort_key f = high_privilege_key \/ sort_key f = medium_privilege_key).
Proof.
  unfold user_findings. intros H. apply in_app_or in H. destruct H as [H | H].
  - destruct (user_high_risks user) eqn:E; [ destruct H | ].
    destruct H as [<- | []]. split; [ reflexivity | ].
    unfold sort_key, high_risk_finding; cbn [risk_level risk_type].
    destruct (list_in "超级权限" _); [ left | right ]; reflexivity.
  - destruct (wildcard_host user); [ | destruct H ].
    destruct H as [<- | []]. split; [ reflexivity | right; reflexivity ].
Qed.

Lemma user_findings_length (user : dict pyvalue) : List.length (user_findings user) <= 2.
Proof.
  unfold user_findings. rewrite length_app.
  destruct (user_high_risks user); destruct (wildcard_host user); simpl; lia.
Qed.

Section WithJson.
Variable json_loads : pyvalue -> option sensitive_info.

Lemma table_findings_shape database table found :
  outcome (table_findings json_loads database table) = Ok found ->
  found = [] \/ exists f, found = [f] /\ traced database table f.
Proof.
  unfold table_findings.
  destruct (eq_str _ yes) eqn:Hc; [ | intros H; inversion H; auto ].
  destruct (match json_loads _ with Some parsed => parsed | None => [] end) as [ | x info];
    [ intros H; inversion H; auto | ].
  rewrite EffFacts.outcome_bind.
  destruct (outcome (foldM collect_type (x :: info) ([], []))) as [[fields samples] | e];
    [ | discriminate ].
  intros H; inversion H. right. eexists; split; [ reflexivity | ].
  unfold traced; cbn [risk_type risk_level check_item table_name record_count].
  auto 10.
Qed.

Lemma tables_loop database tables acc acc' :
  outcome (foldM (fun acc table =>
                    found <- table_findings json_loads database table ;; ret (acc ++ found))
                 tables acc) = Ok acc' ->
  exists found,
    acc' = acc ++ found /\
    List.length found <= List.length tables /\
    forall f, In f found -> exists table, In table tables /\ traced database table f.
Proof.
  revert acc; induction tables as [ | table tables IH]; intros acc; cbn [foldM].
  - intros H; inversion H. exists []. rewrite app_nil_r.
    split; [ reflexivity | split; [ simpl; lia | intros f [] ] ].
  - rewrite !EffFacts.outcome_bind.
    destruct (outcome (table_findings json_loads database table)) as [one | e] eqn:Ht;
      [ | discriminate ].
    cbn [outcome ret fst]. intros H.
    destruct (IH _ H) as (more & -> & Hlen & Htr).
    exists (one ++ more). rewrite app_assoc.
    split; [ reflexivity | ].
    destruct (table_findings_shape database table one Ht) as [-> | (f & -> & Hf)].
    + split; [ simpl; lia | ].
      intros f Hf. destruct (Htr f Hf) as (t & Hin & Ht'). exists t; split; [ right | ]; auto.
    + split; [ simpl; lia | ].
      intros g [<- | Hg].
      * exists table; split; [ left; reflexivity | exact Hf ].
      * destruct (Htr g Hg) as (t & Hin & Ht'). exists t; split; [ right | ]; auto.
Qed.

Lemma databases_loop databases_info acc acc' :
  outcome (foldM (database_findings json_loads) databases_info acc) = Ok acc' ->
  exists found,
    acc' = acc ++ found /\
    List.length found <= List.length (flat_map snd databases_info) /\
    forall f, In f found ->
      exists database tables table,
        In (database, tables) databases_info /\ In table tables /\
        traced database table f.
Proof.
  revert acc; induction databases_info as [ | [database tables] dbs IH]; intros acc;
    cbn [foldM].
  - intros H; inversion H. exists []. rewrite app_nil_r.
    split; [ reflexivity | split; [ simpl; lia | intros f [] ] ].
  - rewrite EffFacts.outcome_bind. unfold database_findings at 1.
    destruct (outcome (foldM _ tables acc)) as [acc1 | e] eqn:Ht; [ | discriminate ].
    intros H.
    destruct (tables_loop database tables acc acc1 Ht) as (one & -> & Hlen1 & Htr1).
    destruct (IH _ H) as (more & -> & Hlen & Htr).
    exists (one ++ more). rewrite app_assoc.
    split; [ reflexivity | ].
    split; [ cbn [flat_map snd]; rewrite !length_app; lia | ].
    intros f Hf. apply in_app_or in Hf. destruct Hf as [Hf | Hf].
    + destruct (Htr1 f Hf) as (t & Hin & Ht').
      exists database, tables, t. split; [ left; reflexivity | auto ].
    + destruct (Htr f Hf) as (db & ts & t & Hin & Hin' & Ht').
      exists db, ts, t. split; [ right; exact Hin | auto ].
Qed.

End WithJson.

End ReportFacts.

Section SheetProperties.
Import Spec Aggregator AggregatorFacts SummaryFacts Report ReportFacts.
Variable json_loads : pyvalue -> option sensitive_info.

Lemma emitted_findings users databases_info emitted :
  outcome (collect_audit_results json_loads users databases_info) = Ok emitted ->
  exists found,
    emitted = found ++ flat_map user_findings users /\
    List.length found <= List.length (flat_map snd databases_info) /\
    forall f, In f found ->
      exists database tables table,
        In (database, tables) databases_info /\ In table tables /\
        traced database table f.
Proof.
  unfold collect_audit_results. rewrite EffFacts.outcome_bind.
  destruct (outcome (foldM (database_findings json_loads) databases_info []))
    as [found | e] eqn:Hf; [ | discriminate ].
  intros H; inversion H.
  destruct (databases_loop json_loads databases_info [] found Hf) as (found' & -> & Hlen & Htr).
  exists found'. auto.
Qed.

(** X7.  The audit sheet comes in three blocks and never holds a finding
    of a level other than 高 and 中: the list returned by
    [_generate_audit_summary] is the findings on sensitive data, then the
    privilege findings of level 高, then the privilege findings of level 中,
    each block in the order of emission. *)
Theorem audit_summary_in_three_blocks
    (users : list (dict pyvalue)) (databases_info : dict (list (dict pyvalue)))
    (out : list finding) :
  outcome (_generate_audit_summary json_loads users databases_info) = Ok out ->
  exists emitted,
    outcome (collect_audit_results json_loads users databases_info) = Ok emitted /\
    out = with_key sensitive_key emitted
          ++ with_key high_privilege_key emitted
          ++ with_key medium_privilege_key emitted /\
    forall f, In f out -> f.(risk_level) = "高" \/ f.(risk_level) = "中".
Proof.
  intros Hout.
  destruct (summary_outcome json_loads users databases_info out Hout) as (emitted & He & ->).
  destruct (emitted_findings users databases_info emitted He) as (found & Hem & _ & Htr).
  exists emitted. split; [ exact He | ]. split.
  - apply sort_three_keys; try reflexivity.
    intros x Hx. rewrite Hem in Hx. apply in_app_or in Hx. destruct Hx as [Hx | Hx].
    + destruct (Htr x Hx) as (db & ts & t & _ & _ & _ & Hty & Hlv & _).
      left. unfold sort_key. rewrite Hty, Hlv. reflexivity.
    + apply in_flat_map in Hx. destruct Hx as (user & _ & Hx).
      right. apply (user_findings_keys user x Hx).
  - intros f Hf. apply (Permutation_in f (Permutation_sym (sort_perm emitted))) in Hf.
    rewrite Hem in Hf. apply in_app_or in Hf. destruct Hf as [Hf | Hf].
    + destruct (Htr f Hf) as (db & ts & t & _ & _ & _ & _ & Hlv & _). left; exact Hlv.
    + apply in_flat_map in Hf. destruct Hf as (user & _ & Hf).
      unfold user_findings in Hf. apply in_app_or in Hf. destruct Hf as [Hf | Hf].
      * destruct (user_high_risks user) eqn:E; [ destruct Hf | ].
        destruct Hf as [<- | []]. unfold high_risk_finding; cbn [risk_level].
        destruct (list_in "超级权限" _); auto.
      * destruct (wildcard_host user); [ | destruct Hf ].
        destruct Hf as [<- | []]. right; reflexivity.
Qed.

(** X8.  Nothing on the audit sheet is made up: every finding returned by
    [_generate_audit_summary] is either the finding of a table of
    [databases_info] whose confirmation is 是, of level 高, carrying the name
    of its database, its table name and its row count, or one of the
    findings of a user of [users]. *)
Theorem audit_findings_are_traceable
    (users : list (dict pyvalue)) (databases_info : dict (list (dict pyvalue)))
    (out : list finding) (f : finding) :
  outcome (_generate_audit_summary json_loads users databases_info) = Ok out ->
  In f out ->
  (exists database tables table,
     In (database, tables) databases_info /\ In table tables /\
     traced database table f) \/
  (exists user, In user users /\ In f (user_findings user)).
Proof.
  intros Hout Hf.
  destruct (summary_outcome json_loads users databases_info out Hout) as (emitted & He & ->).
  destruct (emitted_findings users databases_info emitted He) as (found & Hem & _ & Htr).
  apply (Permutation_in f (Permutation_sym (sort_perm emitted))) in Hf.
  rewrite Hem in Hf. apply in_app_or in Hf. destruct Hf as [Hf | Hf].
  - left. apply Htr; exact Hf.
  - right. apply in_flat_map in Hf. exact Hf.
Qed.

(** X9.  The audit sheet has at most one row per table and two per user. *)
Theorem audit_summary_length_bound
    (users : list (dict pyvalue)) (databases_info : dict (list (dict pyvalue)))
    (out : list finding) :
  outcome (_generate_audit_summary json_loads users databases_info) = Ok out ->
  List.length out <= List.length (flat_map snd databases_info) + 2 * List.length users.
Proof.
  intros Hout.
  destruct (summary_outcome json_loads users databases_info out Hout) as (emitted & He & ->).
  destruct (emitted_findings users databases_info emitted He) as (found & Hem & Hlen & _).
  rewrite <- (Permutation_length (sort_perm emitted)), Hem, length_app.
  assert (Hu : List.length (flat_map user_findings users) <= 2 * List.length users).
  { clear. induction users as [ | u us IH]; simpl; [ lia | ].
    rewrite length_app. pose proof (user_findings_length u). lia. }
  lia.
Qed.

(** X10.  When no table is confirmed, [json.loads] is not called and the
    audit sheet holds the findings of the users only: the function returns
    their sorted list, whatever the cells under 敏感信息 hold. *)
Theorem audit_summary_without_confirmed_tables
    (users : list (dict pyvalue)) (databases_info : dict (list (dict pyvalue))) :
  (forall database tables table,
     In (database, tables) databases_info -> In table tables ->
     eq_str (get_default table "敏感信息确认" PyNone) yes = false) ->
  outcome (_generate_audit_summary json_loads users databases_info)
    = Ok (sort (flat_map user_findings users)).
Proof.
  intros Hno.
  unfold _generate_audit_summary, collect_audit_results.
  rewrite !EffFacts.outcome_bind.
  destruct (EffFacts.foldM_invariant (database_findings json_loads)
              (fun acc => acc = []) databases_info) with (acc := @nil finding)
    as (found & -> & ->); [ | reflexivity | reflexivity ].
  intros acc [database tables] Hdb ->. unfold database_findings.
  apply (EffFacts.foldM_invariant _ (fun acc => acc = [])); [ | reflexivity ].
  intros acc table Ht ->. rewrite EffFacts.outcome_bind.
  unfold table_findings. rewrite (Hno database tables table Hdb Ht).
  eexists; split; reflexivity.
Qed.

End SheetProperties.

Lemma audit_summary_in_three_blocks_witness :
  exists out emitted,
    outcome (Aggregator._generate_audit_summary Examples.phone_json_loads
               Examples.users Examples.databases_info) = Ok out /\
    outcome (Aggregator.collect_audit_results Examples.phone_json_loads
               Examples.users Examples.databases_info) = Ok emitted /\
    out = Spec.with_key Report.sensitive_key emitted
          ++ Spec.with_key Report.high_privilege_key emitted
          ++ Spec.with_key Report.medium_privilege_key emitted /\
    forall f, In f out ->
      f.(Aggregator.risk_level) = "高" \/ f.(Aggregator.risk_level) = "中".
Proof.
  eexists.
  destruct (audit_summary_in_three_blocks Examples.phone_json_loads
              Examples.users Examples.databases_info _ eq_refl)
    as (emitted & He & Hblocks & Hlevels).
  exists emitted. split; [ reflexivity | ]. auto.
Defined.

Lemma audit_findings_are_traceable_witness :
  (exists database tables table,
     In (database, tables) Examples.databases_info /\ In table tables /\
     Report.traced database table (Aggregator.high_risk_finding Examples.root)) \/
  (exists user, In user Examples.users /\
     In (Aggregator.high_risk_finding Examples.root) (Aggregator.user_findings user)).
Proof.
  eapply (audit_findings_are_traceable Examples.phone_json_loads
            Examples.users Examples.databases_info).
  - reflexivity.
  - right; left; reflexivity.
Defined.

Lemma audit_summary_length_bound_witness :
  exists out,
    outcome (Aggregator._generate_audit_summary Examples.phone_json_loads
               Examples.users Examples.databases_info) = Ok out /\
    List.length out <= List.length (flat_map snd Examples.databases_info)
                       + 2 * List.length Examples.users.
Proof.
  eexists. split; [ reflexivity | ].
  apply (audit_summary_length_bound Examples.phone_json_loads).
  reflexivity.
Defined.

Lemma audit_summary_without_confirmed_tables_witness :
  outcome (Aggregator._generate_audit_summary Examples.phone_json_loads
             [Examples.backup]
             [("shop", [[("表名", PyStr "logs"); ("敏感信息", PyStr "{}");
                         ("敏感信息确认", PyStr "否"); ("总条数", PyInt 50)]])])
    = Ok (Aggregator.sort (flat_map Aggregator.user_findings [Examples.backup])).
Proof.
  apply (audit_summary_without_confirmed_tables Examples.phone_json_loads).
  intros database tables table [H | []] Ht. inversion H; subst database tables.
  destruct Ht as [<- | []]. reflexivity.
Defined.

(** ** The datasource configuration, line by line *)

Section ConfigurationLines.
Import Config ConfigLines.



End ConfigurationLines.


(** ** From the rows of [mysql.user] to the findings *)

Module UsersFacts.
Import Users.

Lemma get_fold_set_other (cells : list (string * pyvalue)) (acc : dict pyvalue) k :
  ~ In k (map fst cells) ->
  get (fold_left (fun d cell => set d (fst cell) (snd cell)) cells acc) k = get acc k.
Proof.
  revert acc; induction cells as [ | [k0 v0] cells IH]; intros acc Hnot; simpl;
    [ reflexivity | ].
  rewrite IH by (intros H; apply Hnot; right; exact H).
  apply DictFacts.get_set_other. intros ->. apply Hnot; left; reflexivity.
Qed.

Lemma get_fold_set (cells : list (string * pyvalue)) (acc : dict pyvalue) k v :
  NoDup (map fst cells) -> In (k, v) cells ->
  get (fold_left (fun d cell => set d (fst cell) (snd cell)) cells acc) k = Some v.
Proof.
  revert acc; induction cells as [ | [k0 v0] cells IH]; intros acc Hnd Hin; simpl;
    [ destruct Hin | ].
  inversion Hnd as [ | ? ? Hnotin Hnd']; subst.
  destruct Hin as [Heq | Hin].
  - inversion Heq; subst k0 v0.
    rewrite get_fold_set_other by exact Hnotin. apply DictFacts.get_set_same.
  - apply IH; assumption.
Qed.

Lemma map_fst_combine_nodup (columns : list string) (row : list pyvalue) :
  NoDup columns -> NoDup (map fst (combine columns row)).
Proof.
  revert row; induction columns as [ | c columns IH]; intros [ | v row] Hnd; simpl;
    try constructor.
  - inversion Hnd as [ | ? ? Hnotin Hnd']; subst.
    intros H. apply Hnotin. apply in_map_iff in H. destruct H as ([c' v'] & <- & H).
    apply in_combine_l in H. exact H.
  - inversion Hnd; subst. apply IH; assumption.
Qed.

Lemma get_map_values (f : pyvalue -> pyvalue) (d : dict pyvalue) k :
  get (map (fun item => (fst item, f (snd item))) d) k = option_map f (get d k).
Proof.
  induction d as [ | [k0 v0] d IH]; simpl; [ reflexivity | ].
  destruct (String.eqb k k0); [ reflexivity | exact IH ].
Qed.

Lemma get_user_info_of (columns : list string) (row : list pyvalue) i k raw :
  NoDup columns ->
  nth_error columns i = Some k ->
  nth_error row i = Some raw ->
  get (user_info_of columns row) k = Some (yes_no raw).
Proof.
  intros Hnd Hk Hraw. unfold user_info_of, dict_of_zip.
  rewrite get_map_values, (get_fold_set _ _ k raw); [ reflexivity | | ].
  - apply map_fst_combine_nodup; exact Hnd.
  - apply ClassifierFacts.in_combine_nth_error. eauto.
Qed.

Lemma yes_no_is_yes (raw : pyvalue) :
  eq_str (yes_no raw) "是" = eq_str raw "Y" || eq_str raw "是".
Proof.
  unfold yes_no. destruct (eq_str raw "Y") eqn:EY; [ reflexivity | ].
  destruct (eq_str raw "N") eqn:EN; [ | reflexivity ].
  destruct raw; try discriminate EN. simpl in EN. apply String.eqb_eq in EN; subst s.
  reflexivity.
Qed.

End UsersFacts.

Section UsersToFindings.
Import Users UsersFacts Aggregator AggregatorFacts SummaryFacts.
Variable json_loads : pyvalue -> option sensitive_info.

(** X12.  A privilege counts as held exactly when the server reported it as
    [Y] (or already as 是).  For distinct column names, the dictionary built
    by [get_database_users] for a row holds every value of the row under
    its column name, with the strings [Y] and [N] replaced by 是 and 否 and
    every other value unchanged; so the test [user.get(perm) == '是'] of the
    aggregator is true exactly for a raw value [Y] or 是, and no value of the
    dictionary is the string [Y] or [N]. *)
Theorem user_privilege_held_iff_reported
    (columns : list string) (row : list pyvalue) (i : nat) (perm : string)
    (raw : pyvalue) :
  NoDup columns ->
  nth_error columns i = Some perm ->
  nth_error row i = Some raw ->
  get (user_info_of columns row) perm = Some (yes_no raw) /\
  holds (user_info_of columns row) perm = eq_str raw "Y" || eq_str raw "是" /\
  (eq_str raw "Y" = false -> eq_str raw "N" = false -> yes_no raw = raw) /\
  (forall k v, In (k, v) (user_info_of columns row) ->
               eq_str v "Y" = false /\ eq_str v "N" = false).
Proof.
  intros Hnd Hk Hraw.
  pose proof (get_user_info_of columns row i perm raw Hnd Hk Hraw) as Hget.
  split; [ exact Hget | ]. split; [ | split ].
  - unfold holds, get_default. rewrite Hget. apply yes_no_is_yes.
  - intros HY HN. unfold yes_no. rewrite HY, HN. reflexivity.
  - intros k v Hin. unfold user_info_of in Hin. apply in_map_iff in Hin.
    destruct Hin as ([k0 v0] & Heq & _). inversion Heq; subst k v. simpl.
    unfold yes_no. destruct (eq_str v0 "Y") eqn:EY; [ split; reflexivity | ].
    destruct (eq_str v0 "N") eqn:EN; [ split; reflexivity | ]. auto.
Qed.

(** X13.  From the server to the sheet: when the query on [mysql.user]
    answers with distinct column names and a row reports [Y] under one of
    the eight high-risk privileges, the audit sheet computed from the users
    of [get_database_users] holds the high-risk finding of that row, and
    its level is 高 if the row reports [Y] under 超级权限. *)
Theorem reported_privilege_reaches_the_sheet
    (columns : list string) (rows : list (list pyvalue)) (row : list pyvalue)
    (i : nat) (perm : string) (users : list (dict pyvalue))
    (databases_info : dict (list (dict pyvalue))) (out : list finding) :
  NoDup columns ->
  In row rows ->
  In perm high_risk_permissions ->
  nth_error columns i = Some perm ->
  nth_error row i = Some (PyStr "Y") ->
  outcome (get_database_users (Rows columns rows)) = Ok users ->
  outcome (_generate_audit_summary json_loads users databases_info) = Ok out ->
  In (high_risk_finding (user_info_of columns row)) out /\
  (forall j, nth_error columns j = Some "超级权限" ->
             nth_error row j = Some (PyStr "Y") ->
             (high_risk_finding (user_info_of columns row)).(risk_level) = "高").
Proof.
  intros Hnd Hrow Hperm Hk Hraw Husers Hout.
  unfold get_database_users in Husers. rewrite EffFacts.outcome_log_then in Husers.
  inversion Husers; subst users. clear Husers.
  set (user := user_info_of columns row).
  assert (Hheld : holds user perm = true).
  { unfold holds, get_default, user.
    rewrite (get_user_info_of columns row i perm _ Hnd Hk Hraw). reflexivity. }
  destruct (summary_outcome json_loads _ databases_info out Hout) as (emitted & He & ->).
  destruct (collect_outcome json_loads _ databases_info emitted He) as (found & ->).
  split.
  - eapply Permutation_in; [ apply sort_perm | ].
    apply in_or_app; right. apply in_flat_map.
    exists user. split; [ apply in_map; exact Hrow | ].
    unfold user_findings. apply in_or_app; left.
    destruct (user_high_risks user) eqn:E; [ | left; reflexivity ].
    assert (Hin : In perm (user_high_risks user))
      by (apply filter_In; split; assumption).
    rewrite E in Hin. destruct Hin.
  - intros j Hj Hjraw.
    unfold high_risk_finding; cbn [risk_level]. rewrite super_in_high_risks.
    unfold holds, get_default. fold user. unfold user.
    rewrite (get_user_info_of columns row j _ _ Hnd Hj Hjraw). reflexivity.
Qed.

End UsersToFindings.

Lemma user_privilege_held_iff_reported_witness :
  Aggregator.holds
    (Users.user_info_of ["用户名"; "主机"; "查询权限"; "超级权限"]
       [PyStr "root"; PyStr "%"; PyStr "N"; PyStr "Y"]) "超级权限" = true.
Proof.
  apply (user_privilege_held_iff_reported ["用户名"; "主机"; "查询权限"; "超级权限"]
           [PyStr "root"; PyStr "%"; PyStr "N"; PyStr "Y"] 3 "超级权限" (PyStr "Y")).
  - repeat constructor; simpl; intuition discriminate.
  - reflexivity.
  - reflexivity.
Defined.

Lemma reported_privilege_reaches_the_sheet_witness :
  exists out,
    outcome (Aggregator._generate_audit_summary Examples.phone_json_loads
               [Users.user_info_of ["用户名"; "主机"; "查询权限"; "超级权限"]
                  [PyStr "root"; PyStr "%"; PyStr "N"; PyStr "Y"]] []) = Ok out /\
    In (Aggregator.high_risk_finding
          (Users.user_info_of ["用户名"; "主机"; "查询权限"; "超级权限"]
             [PyStr "root"; PyStr "%"; PyStr "N"; PyStr "Y"])) out.
Proof.
  eexists. split; [ reflexivity | ].
  apply (reported_privilege_reaches_the_sheet Examples.phone_json_loads
           ["用户名"; "主机"; "查询权限"; "超级权限"]
           [[PyStr "root"; PyStr "%"; PyStr "N"; PyStr "Y"]]
           [PyStr "root"; PyStr "%"; PyStr "N"; PyStr "Y"] 3 "超级权限"
           [Users.user_info_of ["用户名"; "主机"; "查询权限"; "超级权限"]
              [PyStr "root"; PyStr "%"; PyStr "N"; PyStr "Y"]] []).
  - repeat constructor; simpl; intuition discriminate.
  - left; reflexivity.
  - left; reflexivity.
  - reflexivity.
  - reflexivity.
  - reflexivity.
  - reflexivity.
Defined.

(** ** The tables of a database, turn by turn *)

Module TablesFacts.
Import Tables TableRows.

Lemma confirm_returns (re_match : Re.matcher) env info :
  exists verdict,
    outcome (confirm_sensitive_data re_match env info) = Ok verdict /\
    (verdict = yes \/ verdict = no).
Proof.
  destruct (load_sensitive_rules_ok env) as (cfg & Hload).
  rewrite (ConfirmFacts.confirm_outcome re_match env cfg info Hload).
  destruct (existsb _ info); eexists; split; eauto.
Qed.

Lemma attempt_ok {A} (text : exn -> string) (m : M A) (a : A) :
  outcome m = Ok a -> outcome (attempt text m) = Ok (inl a).
Proof.
  destruct m as [[a' | e] l]; simpl; intros H; inversion H; reflexivity.
Qed.

Lemma foldM_app_outcome {A B} (f : A -> B -> M A) (l1 l2 : list B) (acc : A) :
  outcome (foldM f (l1 ++ l2) acc) =
  match outcome (foldM f l1 acc) with
  | Ok acc' => outcome (foldM f l2 acc')
  | Raise e => Raise e
  end.
Proof.
  revert acc; induction l1 as [ | x l1 IH]; intros acc; cbn [foldM app].
  - reflexivity.
  - rewrite !EffFacts.outcome_bind. destruct (outcome (f acc x)); [ apply IH | reflexivity ].
Qed.

Section WithEnvironment.
Variable re_match : Re.matcher.
Variable env : rules_file.
Variable json_dumps_values : dict pyvalue -> string.
Variable json_dumps_info : sensitive_info -> string.
Variable exception_text : exn -> string.
Variable unbound_text : string -> string.

Local Abbreviation body :=
  (table_body re_match env json_dumps_values json_dumps_info exception_text).
Local Abbreviation step :=
  (table_step re_match env json_dumps_values json_dumps_info exception_text unbound_text).

(** what [table_step] appends, given the outcome of [table_body] *)
Lemma step_outcome kept table_info t result kept' :
  outcome (body kept t) = Ok (result, kept') ->
  exists row,
    outcome (step (kept, table_info) t) = Ok (kept', table_info ++ [row]) /\
    get row "表名" = Some (PyStr t.(table)) /\
    match result with
    | inr e => row = table_record t.(table) (error_json e) fetch_failed no 0
    | inl (column_value_json, total_count, _) =>
        match kept' with
        | (Some a, Some b) => row = table_record t.(table) column_value_json a b total_count
        | _ => exists e, row = table_record t.(table) (error_json e) fetch_failed no 0
        end
    end.
Proof.
  intros Hbody. unfold table_step. rewrite EffFacts.outcome_bind, Hbody.
  destruct result as [[[cvj n] m] | e].
  - destruct kept' as [[a | ] [b | ]];
      rewrite EffFacts.outcome_log_then; eexists; (split; [ reflexivity | ]);
      (split; [ reflexivity | ]); eauto.
  - rewrite EffFacts.outcome_log_then. eexists; split; [ reflexivity | ]. split; reflexivity.
Qed.

Lemma body_returns kept t :
  exists result kept', outcome (body kept t) = Ok (result, kept').
Proof.
  unfold table_body.
  destruct (describe t) as [columns | e]; [ | eexists _, _; reflexivity ].
  destruct (count t) as [n | e]; [ | eexists _, _; reflexivity ].
  destruct (_ && _).
  - destruct (sample t) as [[[ | v record] | ] | e];
      try (eexists _, _; reflexivity);
      try (rewrite EffFacts.outcome_log_then; eexists _, _; reflexivity).
    destruct (identify_returns re_match env columns (v :: record)) as (info & Hid).
    rewrite EffFacts.outcome_bind, (attempt_ok _ _ _ Hid).
    destruct (confirm_returns re_match env info) as (verdict & Hc & _).
    rewrite EffFacts.outcome_bind, (attempt_ok _ _ _ Hc).
    eexists _, _; reflexivity.
  - destruct columns as [ | c columns]; [ eexists _, _; reflexivity | ].
    destruct (identify_returns re_match env (c :: columns)
                (repeat PyNone (List.length (c :: columns)))) as (info & Hid).
    rewrite EffFacts.outcome_bind, (attempt_ok _ _ _ Hid).
    destruct (confirm_returns re_match env info) as (verdict & Hc & _).
    rewrite EffFacts.outcome_bind, (attempt_ok _ _ _ Hc).
    eexists _, _; reflexivity.
Qed.

Lemma step_appends kept table_info t :
  exists kept' row,
    outcome (step (kept, table_info) t) = Ok (kept', table_info ++ [row]) /\
    get row "表名" = Some (PyStr t.(table)).
Proof.
  destruct (body_returns kept t) as (result & kept' & Hbody).
  destruct (step_outcome kept table_info t result kept' Hbody) as (row & H & Hname & _).
  exists kept', row. auto.
Qed.

Lemma loop_appends tables kept table_info :
  exists kept' rows,
    outcome (foldM step tables (kept, table_info)) = Ok (kept', table_info ++ rows) /\
    map (fun row => get row "表名") rows = map (fun t => Some (PyStr t.(table))) tables.
Proof.
  revert kept table_info; induction tables as [ | t tables IH]; intros kept table_info.
  - exists kept, []. rewrite app_nil_r. split; reflexivity.
  - destruct (step_appends kept table_info t) as (kept1 & row & Hstep & Hname).
    destruct (IH kept1 (table_info ++ [row])) as (kept2 & rows & Hloop & Hnames).
    exists kept2, (row :: rows). cbn [foldM]. rewrite EffFacts.outcome_bind, Hstep, Hloop.
    rewrite <- app_assoc. split; [ reflexivity | ].
    cbn [map]. rewrite Hname, Hnames. reflexivity.
Qed.

(** the turn for the table that follows [before] *)
Lemma loop_turn before t after kept table_info :
  exists kept_b rows_b kept_t row kept' rows,
    outcome (foldM step before (kept, table_info)) = Ok (kept_b, table_info ++ rows_b) /\
    List.length rows_b = List.length before /\
    outcome (step (kept_b, table_info ++ rows_b) t)
      = Ok (kept_t, (table_info ++ rows_b) ++ [row]) /\
    outcome (foldM step (before ++ t :: after) (kept, table_info))
      = Ok (kept', table_info ++ rows_b ++ row :: rows) /\
    outcome (foldM step after (kept_t, (table_info ++ rows_b) ++ [row]))
      = Ok (kept', ((table_info ++ rows_b) ++ [row]) ++ rows).
Proof.
  destruct (loop_appends before kept table_info) as (kept_b & rows_b & Hb & Hnb).
  destruct (step_appends kept_b (table_info ++ rows_b) t) as (kept_t & row & Ht & _).
  destruct (loop_appends after kept_t ((table_info ++ rows_b) ++ [row]))
    as (kept' & rows & Ha & _).
  exists kept_b, rows_b, kept_t, row, kept', rows.
  split; [ exact Hb | ].
  split; [ apply (f_equal (@List.length _)) in Hnb; rewrite !length_map in Hnb; exact Hnb | ].
  split; [ exact Ht | ].
  split; [ | exact Ha ].
  rewrite foldM_app_outcome, Hb. cbn [foldM].
  rewrite EffFacts.outcome_bind, Ht, Ha.
  rewrite <- !app_assoc. reflexivity.
Qed.

End WithEnvironment.

End TablesFacts.

Module TableTurns.
Import Tables TableRows TablesFacts.

Lemma null_record_verdict (re_match : Re.matcher) env env' columns record info :
  (forall v, In v record -> v = PyNone) ->
  outcome (identify_sensitive_info re_match env columns record) = Ok info ->
  outcome (confirm_sensitive_data re_match env' info) = Ok no.
Proof.
  intros Hnull Hid.
  destruct (load_sensitive_rules_ok env') as (cfg' & Hload').
  rewrite (ConfirmFacts.confirm_outcome re_match env' cfg' info Hload').
  destruct (existsb _ info) eqn:E; [ | reflexivity ].
  apply ConfirmFacts.confirms_iff_revalidates in E.
  destruct E as (rn & fields & rc & column & d & p & Hin & _ & Hf & Hnn & _).
  destruct (identify_entry_shape re_match env columns record info rn fields column
              (FDict d) Hid Hin Hf) as (i & value & fm & vm & _ & Hv & Heq & _).
  exfalso. apply Hnn. inversion Heq; subst d.
  rewrite (Hnull value (nth_error_In _ _ Hv)). reflexivity.
Qed.

Lemma get_empty_dict (columns : list string) (c : string) :
  In c columns -> get (empty_dict columns) c = Some PyNone.
Proof.
  unfold empty_dict.
  assert (H : forall acc,
             In c columns \/ get acc c = Some PyNone ->
             get (fold_left (fun d column => set d column PyNone) columns acc) c
               = Some PyNone).
  { induction columns as [ | x columns IH]; intros acc Hc; simpl.
    - destruct Hc as [[] | Hc]; exact Hc.
    - apply IH. destruct (string_dec x c) as [-> | Hne].
      + right. apply DictFacts.get_set_same.
      + destruct Hc as [[Hx | Hc] | Hc]; [ congruence | left; exact Hc | ].
        right. rewrite DictFacts.get_set_other by congruence. exact Hc. }
  intros Hc. apply H. left; exact Hc.
Qed.

Lemma nth_error_middle {A} (front : list A) (x : A) (back : list A) (n : nat) :
  List.length front = n -> nth_error (front ++ x :: back) n = Some x.
Proof.
  intros <-. rewrite nth_error_app2 by lia. rewrite Nat.sub_diag. reflexivity.
Qed.

Section WithEnvironment.
Variable re_match : Re.matcher.
Variable env : rules_file.
Variable json_dumps_values : dict pyvalue -> string.
Variable json_dumps_info : sensitive_info -> string.
Variable exception_text : exn -> string.
Variable unbound_text : string -> string.

Local Abbreviation body :=
  (table_body re_match env json_dumps_values json_dumps_info exception_text).
Local Abbreviation step :=
  (table_step re_match env json_dumps_values json_dumps_info exception_text unbound_text).

Lemma body_empty_table kept t columns n :
  t.(describe) = Got columns -> columns <> [] ->
  t.(count) = Got n -> (n <= 0)%Z ->
  exists info,
    outcome (identify_sensitive_info re_match env columns
               (repeat PyNone (List.length columns))) = Ok info /\
    outcome (body kept t)
      = Ok (inl (json_dumps_values (empty_dict columns), n, List.length columns),
            (Some (json_dumps_info info), Some no)).
Proof.
  intros Hd Hcols Hc Hn. unfold table_body. rewrite Hd, Hc.
  assert (Hpos : (n >? 0)%Z = false) by (rewrite Z.gtb_ltb; apply Z.ltb_ge; exact Hn).
  rewrite Hpos. cbn [andb].
  destruct columns as [ | c columns]; [ congruence | ].
  destruct (identify_returns re_match env (c :: columns)
              (repeat PyNone (List.length (c :: columns)))) as (info & Hid).
  exists info. split; [ exact Hid | ].
  rewrite EffFacts.outcome_bind, (attempt_ok _ _ _ Hid).
  assert (Hno : outcome (confirm_sensitive_data re_match env info) = Ok no).
  { apply (null_record_verdict re_match env env (c :: columns)
             (repeat PyNone (List.length (c :: columns))) info); [ | exact Hid ].
    intros v Hv. apply repeat_spec in Hv. exact Hv. }
  rewrite EffFacts.outcome_bind, (attempt_ok _ _ _ Hno). reflexivity.
Qed.


Lemma body_sample_missing kept t :
  sample_missing t ->
  exists n m, outcome (body kept t) = Ok (inl ("{}", n, m), kept).
Proof.
  intros (columns & n & Hd & Hcols & Hc & Hn & Hs). unfold table_body. rewrite Hd, Hc.
  assert (Hpos : (n >? 0)%Z = true) by (rewrite Z.gtb_ltb; apply Z.ltb_lt; exact Hn).
  rewrite Hpos.
  destruct columns as [ | c columns]; [ congruence | ]. cbn [andb].
  destruct Hs as [-> | ->]; eexists _, _; reflexivity.
Qed.

Lemma body_described kept t columns n :
  t.(describe) = Got columns -> t.(count) = Got n ->
  exists cells kept', outcome (body kept t) = Ok (inl cells, kept').
Proof.
  intros Hd Hc. unfold table_body. rewrite Hd, Hc.
  destruct (_ && _).
  - destruct (sample t) as [[[ | v record] | ] | e];
      try (eexists _, _; reflexivity);
      try (rewrite EffFacts.outcome_log_then; eexists _, _; reflexivity).
    destruct (identify_returns re_match env columns (v :: record)) as (info & Hid).
    rewrite EffFacts.outcome_bind, (attempt_ok _ _ _ Hid).
    destruct (confirm_returns re_match env info) as (verdict & Hv & _).
    rewrite EffFacts.outcome_bind, (attempt_ok _ _ _ Hv).
    eexists _, _; reflexivity.
  - destruct columns as [ | c columns]; [ eexists _, _; reflexivity | ].
    destruct (identify_returns re_match env (c :: columns)
                (repeat PyNone (List.length (c :: columns)))) as (info & Hid).
    rewrite EffFacts.outcome_bind, (attempt_ok _ _ _ Hid).
    destruct (confirm_returns re_match env info) as (verdict & Hv & _).
    rewrite EffFacts.outcome_bind, (attempt_ok _ _ _ Hv).
    eexists _, _; reflexivity.
Qed.

(** a row written after [table_body] gave cells shows what the two
    variables hold, or the error row *)
Lemma step_shows_effective kept table_info t cells kept' kept'' row :
  outcome (body kept t) = Ok (inl cells, kept') ->
  outcome (step (kept, table_info) t) = Ok (kept'', table_info ++ [row]) ->
  kept'' = kept' /\
  sensitive_cells row
    = (Some (PyStr (fst (effective kept'))), Some (PyStr (snd (effective kept')))).
Proof.
  intros Hbody Hstep.
  destruct (step_outcome re_match env json_dumps_values json_dumps_info exception_text
              unbound_text kept table_info t _ _ Hbody) as (row' & Hstep' & _ & Hrow).
  rewrite Hstep' in Hstep.
  assert (Hk : kept'' = kept') by (inversion Hstep; reflexivity). subst kept''.
  assert (Hr : row' = row).
  { inversion Hstep as [Hrows]. apply app_inv_head in Hrows.
    inversion Hrows; reflexivity. }
  subst row'. clear Hstep Hstep'.
  split; [ reflexivity | ].
  destruct cells as [[cvj n] m].
  destruct kept' as [[a | ] [b | ]]; try (destruct Hrow as (e & ->)); try subst row;
    reflexivity.
Qed.

End WithEnvironment.

End TableTurns.

Module SheetFacts.
Import Aggregator Report Tables.

Section WithJson.
Variable json_loads : pyvalue -> option sensitive_info.




End WithJson.

End SheetFacts.

Section TableProperties.
Import Tables TableRows TablesFacts TableTurns.
Variable re_match : Re.matcher.
Variable env : rules_file.
Variable json_dumps_values : dict pyvalue -> string.
Variable json_dumps_info : sensitive_info -> string.
Variable exception_text : exn -> string.
Variable unbound_text : string -> string.

Local Abbreviation run :=
  (get_table_info re_match env json_dumps_values json_dumps_info exception_text unbound_text).
Local Abbreviation step :=
  (table_step re_match env json_dumps_values json_dumps_info exception_text unbound_text).

Lemma run_listed database tables kept table_info :
  outcome (foldM step tables ((None, None), [])) = Ok (kept, table_info) ->
  outcome (run database (Listed tables)) = Ok table_info.
Proof.
  intros H. unfold get_table_info.
  rewrite EffFacts.outcome_log_then, EffFacts.outcome_bind, H. reflexivity.
Qed.

(** X14.  [get_table_info] never raises and writes one row per table, in
    the order of the listing: whatever the server answers for a table
    (a failed [DESCRIBE], count or sample, no row, no column), the table
    gets exactly one row, under its name.  When [USE] or [SHOW TABLES]
    fails the list is empty. *)
Theorem get_table_info_one_row_per_table (database : string) (server : listing) :
  exists table_info,
    outcome (run database server) = Ok table_info /\
    match server with
    | Listed tables =>
        map (fun row => get row "表名") table_info
          = map (fun t => Some (PyStr t.(table))) tables
    | ListingFails _ => table_info = []
    end.
Proof.
  destruct server as [tables | e].
  - destruct (loop_appends re_match env json_dumps_values json_dumps_info exception_text
                unbound_text tables (None, None) []) as (kept & rows & Hloop & Hnames).
    exists rows. split; [ exact (run_listed database tables kept rows Hloop) | exact Hnames ].
  - exists []. split; reflexivity.
Qed.

(** X15.  A table without rows: when [DESCRIBE] gives columns and the count
    is not positive, the row of the table holds, under 字段名和值, the text of
    the dictionary that maps every column to null, under 敏感信息 the text of
    the classification of the null record, the confirmation 否 and the
    count, whatever the tables around it are. *)
Theorem empty_table_row
    (database : string) (before after : list table_answers) (t : table_answers)
    (columns : list string) (n : Z) :
  t.(describe) = Got columns -> columns <> [] ->
  t.(count) = Got n -> (n <= 0)%Z ->
  exists table_info info,
    outcome (run database (Listed (before ++ t :: after))) = Ok table_info /\
    outcome (identify_sensitive_info re_match env columns
               (repeat PyNone (List.length columns))) = Ok info /\
    nth_error table_info (List.length before)
      = Some (table_record t.(table) (json_dumps_values (empty_dict columns))
                (json_dumps_info info) no n) /\
    forall column, In column columns -> get (empty_dict columns) column = Some PyNone.
Proof.
  intros Hd Hcols Hc Hn.
  destruct (loop_turn re_match env json_dumps_values json_dumps_info exception_text
              unbound_text before t after (None, None) [])
    as (kept_b & rows_b & kept_t & row & kept' & rows & _ & Hlen & Ht & Hall & _).
  destruct (body_empty_table re_match env json_dumps_values json_dumps_info exception_text
              kept_b t columns n Hd Hcols Hc Hn) as (info & Hid & Hbody).
  destruct (step_outcome re_match env json_dumps_values json_dumps_info exception_text
              unbound_text kept_b ([] ++ rows_b) t _ _ Hbody) as (row' & Ht' & _ & Hrow).
  cbn beta iota in Hrow.
  assert (Hsame : row = row').
  { rewrite Ht' in Ht. injection Ht as _ Hrows. apply app_inv_head in Hrows.
    injection Hrows as Hrows. symmetry; exact Hrows. }
  rewrite Hrow in Hsame. subst row.
  eexists (rows_b ++ _ :: rows), info.
  split; [ exact (run_listed database _ kept' _ Hall) | ]. split; [ exact Hid | ].
  split; [ apply nth_error_middle; exact Hlen | apply get_empty_dict ].
Qed.

(** X16.  The variables written to 敏感信息 and 敏感信息确认 outlive a turn
    of the loop.  When a table has columns and a positive count but no row
    is fetched for it, its row repeats under 敏感信息 and 敏感信息确认 the
    cells of the row of the table listed just before it, provided
    [DESCRIBE] and the count succeeded for that table: the classification
    and the verdict of one table are reported for the next. *)
Theorem missing_sample_repeats_previous_table
    (database : string) (before after : list table_answers) (t1 t2 : table_answers)
    (columns1 : list string) (n1 : Z) :
  t1.(describe) = Got columns1 ->
  t1.(count) = Got n1 ->
  sample_missing t2 ->
  exists table_info row1 row2,
    outcome (run database (Listed (before ++ t1 :: t2 :: after))) = Ok table_info /\
    nth_error table_info (List.length before) = Some row1 /\
    nth_error table_info (S (List.length before)) = Some row2 /\
    get row1 "表名" = Some (PyStr t1.(table)) /\
    get row2 "表名" = Some (PyStr t2.(table)) /\
    sensitive_cells row2 = sensitive_cells row1.
Proof.
  intros Hd1 Hc1 Hmiss.
  destruct (loop_turn re_match env json_dumps_values json_dumps_info exception_text
              unbound_text before t1 (t2 :: after) (None, None) [])
    as (kept_b & rows_b & kept1 & row1 & kept' & rows & _ & Hlen & Ht1 & Hall & Hafter).
  destruct (body_described re_match env json_dumps_values json_dumps_info exception_text
              kept_b t1 columns1 n1 Hd1 Hc1) as (cells1 & k1 & Hbody1).
  destruct (step_shows_effective re_match env json_dumps_values json_dumps_info
              exception_text unbound_text kept_b ([] ++ rows_b) t1 cells1 k1 kept1 row1
              Hbody1 Ht1) as [-> Hcells1].
  destruct (step_outcome re_match env json_dumps_values json_dumps_info exception_text
              unbound_text kept_b ([] ++ rows_b) t1 _ _ Hbody1) as (r1 & Ht1' & Hname1 & _).
  assert (r1 = row1).
  { rewrite Ht1' in Ht1. injection Ht1 as Hrows. apply app_inv_head in Hrows.
    injection Hrows as Hrows. exact Hrows. }
  subst r1.
  destruct (body_sample_missing re_match env json_dumps_values json_dumps_info
              exception_text k1 t2 Hmiss) as (n2 & m2 & Hbody2).
  destruct (step_outcome re_match env json_dumps_values json_dumps_info exception_text
              unbound_text k1 (([] ++ rows_b) ++ [row1]) t2 _ _ Hbody2)
    as (row2 & Ht2 & Hname2 & _).
  destruct (step_shows_effective re_match env json_dumps_values json_dumps_info
              exception_text unbound_text k1 (([] ++ rows_b) ++ [row1]) t2 _ k1 k1 row2
              Hbody2 Ht2) as [_ Hcells2].
  destruct (loop_appends re_match env json_dumps_values json_dumps_info exception_text
              unbound_text after k1 ((([] ++ rows_b) ++ [row1]) ++ [row2]))
    as (kept'' & rows' & Hrest & _).
  assert (Hrows : rows = row2 :: rows').
  { cbn [foldM] in Hafter. rewrite EffFacts.outcome_bind, Ht2, Hrest in Hafter.
    inversion Hafter as [[Hk Hr]]. rewrite <- app_assoc in Hr.
    apply app_inv_head in Hr. symmetry. exact Hr. }
  subst rows.
  exists (rows_b ++ row1 :: row2 :: rows'), row1, row2.
  split; [ exact (run_listed database _ kept' _ Hall) | ].
  split; [ apply nth_error_middle; exact Hlen | ].
  split.
  { change (rows_b ++ row1 :: row2 :: rows') with (rows_b ++ [row1] ++ row2 :: rows').
    rewrite app_assoc. apply nth_error_middle. rewrite length_app. simpl. lia. }
  split; [ exact Hname1 | ]. split; [ exact Hname2 | ].
  rewrite Hcells1, Hcells2. reflexivity.
Qed.

End TableProperties.

Section TablesToFindings.
Import Tables TableRows TablesFacts TableTurns Aggregator Report SheetFacts.
Variable re_match : Re.matcher.
Variable env : rules_file.
Variable json_dumps_values : dict pyvalue -> string.
Variable json_dumps_info : sensitive_info -> string.
Variable exception_text : exn -> string.
Variable unbound_text : string -> string.
Variable json_loads : pyvalue -> option sensitive_info.

Local Abbreviation run :=
  (get_table_info re_match env json_dumps_values json_dumps_info exception_text unbound_text).


End TablesToFindings.

Lemma empty_table_row_witness :
  exists table_info info,
    outcome (Tables.get_table_info ReFragment.re_match FileAbsent Examples.dumps_values
               Examples.dumps_info Examples.exception_text Examples.unbound_text
               "shop" (Tables.Listed ([Examples.customers] ++ Examples.archive :: [])))
      = Ok table_info /\
    outcome (identify_sensitive_info ReFragment.re_match FileAbsent ["id"; "mobile"]
               (repeat PyNone (List.length ["id"; "mobile"]))) = Ok info /\
    nth_error table_info (List.length [Examples.customers])
      = Some (Tables.table_record "archive"
                (Examples.dumps_values (Tables.empty_dict ["id"; "mobile"]))
                (Examples.dumps_info info) no 0) /\
    forall column, In column ["id"; "mobile"] ->
                   get (Tables.empty_dict ["id"; "mobile"]) column = Some PyNone.
Proof.
  apply (empty_table_row ReFragment.re_match FileAbsent Examples.dumps_values
           Examples.dumps_info Examples.exception_text Examples.unbound_text
           "shop" [Examples.customers] [] Examples.archive ["id"; "mobile"] 0%Z).
  - reflexivity.
  - discriminate.
  - reflexivity.
  - lia.
Defined.

Lemma missing_sample_repeats_previous_table_witness :
  exists table_info row1 row2,
    outcome (Tables.get_table_info ReFragment.re_match FileAbsent Examples.dumps_values
               Examples.dumps_info Examples.exception_text Examples.unbound_text
               "shop"
               (Tables.Listed ([] ++ Examples.customers :: Examples.sessions :: [])))
      = Ok table_info /\
    nth_error table_info (List.length (@nil Tables.table_answers)) = Some row1 /\
    nth_error table_info (S (List.length (@nil Tables.table_answers))) = Some row2 /\
    get row1 "表名" = Some (PyStr "customers") /\
    get row2 "表名" = Some (PyStr "sessions") /\
    TableRows.sensitive_cells row2 = TableRows.sensitive_cells row1.
Proof.
  apply (missing_sample_repeats_previous_table ReFragment.re_match FileAbsent
           Examples.dumps_values Examples.dumps_info Examples.exception_text
           Examples.unbound_text "shop" [] [] Examples.customers Examples.sessions
           ["id"; "phone"] 100%Z).
  - reflexivity.
  - reflexivity.
  - exists ["id"; "token"], 3%Z.
    split; [ reflexivity | ]. split; [ discriminate | ].
    split; [ reflexivity | ]. split; [ lia | left; reflexivity ].
Defined.

